(** * Voice Tone Analyzer: the application controller and the analysis client

    A shallow embedding of the TypeScript sources

      - services/geminiService.ts   ([analyzeVoiceTone])
      - App.tsx                     (the root component and its handlers)
      - components/AudioUploader.tsx ([handleFileChange], [handleTabChange])

    React state and refs become fields of one record [World]; every event
    handler becomes a function [World -> World].  The browser objects the
    handlers talk to (the MediaRecorder, localStorage, the task queue that
    delivers the recorder's events, the console, the cue player and the
    remote endpoint) are part of the same record, the calls with no state
    of their own being recorded in a chronological [log]. *)

From Stdlib Require Import Ascii NArith QArith.
From stdpp Require Import base strings list gmap pretty.

Local Open Scope N_scope.
Local Open Scope stdpp_scope.

(** ** ECMAScript strings

    A character of a Rocq [string] stands for one UTF-16 code unit in the
    range U+0000..U+00FF.  On text of that range the functions below compute
    what [String.prototype.trim], [toLowerCase], [startsWith], [includes]
    and [split] compute. *)

Module Js.

Definition code (c : ascii) : N := N_of_ascii c.

(** WhiteSpace and LineTerminator code points below U+0100: TAB, LF, VT,
    FF, CR, SP and NBSP. *)
Definition isWhiteSpace (c : ascii) : bool :=
  ((9 <=? code c) && (code c <=? 13)) || (code c =? 32) || (code c =? 160).

Fixpoint trimStart (s : string) : string :=
  match s with
  | EmptyString => EmptyString
  | String c s' => if isWhiteSpace c then trimStart s' else s
  end.

Fixpoint trimEnd (s : string) : string :=
  match s with
  | EmptyString => EmptyString
  | String c s' =>
      match trimEnd s' with
      | EmptyString => if isWhiteSpace c then EmptyString else String c EmptyString
      | t => String c t
      end
  end.

Definition trim (s : string) : string := trimEnd (trimStart s).

(** Upper-case letters below U+0100: A-Z, and U+00C0..U+00DE without the
    multiplication sign U+00D7.  Their lower-case forms are 32 above. *)
Definition isUpper (c : ascii) : bool :=
  ((65 <=? code c) && (code c <=? 90))
  || ((192 <=? code c) && (code c <=? 222) && negb (code c =? 215)).

Definition toLowerChar (c : ascii) : ascii :=
  if isUpper c then ascii_of_N (code c + 32) else c.

Fixpoint toLowerCase (s : string) : string :=
  match s with
  | EmptyString => EmptyString
  | String c s' => String (toLowerChar c) (toLowerCase s')
  end.

Fixpoint startsWith (s searchString : string) : bool :=
  match searchString, s with
  | EmptyString, _ => true
  | String p ps, String c cs => if Ascii.eqb p c then startsWith cs ps else false
  | String _ _, EmptyString => false
  end.

Fixpoint includes (s searchString : string) : bool :=
  startsWith s searchString
  || match s with
     | EmptyString => false
     | String _ s' => includes s' searchString
     end.

(** [s.split('/')], the separator being the single character [sep]. *)
Fixpoint split (sep : ascii) (s : string) : list string :=
  match s with
  | EmptyString => [EmptyString]
  | String c s' =>
      if Ascii.eqb c sep then EmptyString :: split sep s'
      else match split sep s' with
           | piece :: rest => String c piece :: rest
           | [] => [String c EmptyString]
           end
  end.

(** [`${xs[i]}`]: an index past the end reads [undefined], which a template
    literal prints as the nine letters of that word. *)
Definition templateIndex (xs : list string) (i : nat) : string :=
  match xs !! i with
  | Some x => x
  | None => "undefined"
  end.

(** Truthiness of a string, and of a string-or-null. *)
Definition truthy (s : string) : bool :=
  match s with EmptyString => false | String _ _ => true end.

Definition truthyOpt (o : option string) : bool :=
  match o with Some s => truthy s | None => false end.

Definition dquote : string := String (ascii_of_N 34) EmptyString.
Definition newline : string := String (ascii_of_N 10) EmptyString.

(** What a [try] block, or an awaited promise, completes with. *)
Inductive Thrown :=
| ThrownError (message : string)   (* an instance of Error *)
| ThrownValue.                     (* any other thrown value *)

Inductive Completion (A : Type) :=
| Normal (a : A)
| Throw (e : Thrown).
Global Arguments Normal {A} a.
Global Arguments Throw {A} e.

End Js.

(** ** Data model *)

(** A Blob is its bytes and its media type; a File adds a name.
    [new Blob(parts, {type})] concatenates the parts.  The type is kept as
    it is passed: it is a media type reported by the recorder, in lower-case
    printable ASCII, which the constructors store unchanged. *)
Record Blob := { blob_data : string; blob_type : string }.

Record File := { file_name : string; file_data : string; file_type : string }.

Definition newBlob (parts : list Blob) (type : string) : Blob :=
  {| blob_data := foldr (fun b acc => blob_data b +:+ acc) "" parts;
     blob_type := type |}.

Definition newFile (parts : list Blob) (name type : string) : File :=
  {| file_name := name; file_data := blob_data (newBlob parts type);
     file_type := type |}.

(** The MediaRecorder the ref points to: its [state], its [mimeType], and
    the microphone stream it was constructed on (streams are numbered). *)
Inductive RecordingState := inactive | recording | paused.

Record MediaRecorder :=
  { rec_state : RecordingState; rec_mimeType : string; rec_stream : nat }.

Definition isRecordingState (r : MediaRecorder) : bool :=
  match rec_state r with recording => true | _ => false end.

(** [stop()] inactivates the recorder at once and queues one task, which
    fires [dataavailable] and then [stop] on that recorder.  Both handlers
    are closures of the [handleStartRecording] call that built the recorder;
    the only variable of that call they keep is its [stream]. *)
Inductive Task := RecorderStopped (stream : nat).

Inductive Tab := upload | record.

Inductive Cue := success | failure.   (* 'success' | 'error' *)

Inductive Part :=
| inlineData (data mimeType : string)
| textPart (text : string).

Record GenerateContentRequest := { model : string; parts : list Part }.

(** Calls that leave the page, in the order they are made. *)
Inductive Effect :=
| PlayAudioFeedback (type : Cue)
| ConsoleError (label : string)
| GenerateContent (key : string) (request : GenerateContentRequest)
| GetUserMedia
| NewMediaRecorder (stream : nat)
| RecorderStart (stream : nat)
| RecorderStop (stream : nat)
| TrackStop (stream : nat).

(** What the browser answers to one [handleStartRecording]. *)
Inductive RecorderOutcome :=
| ConstructorThrows
| Constructed (mimeType : string) (startThrows : bool).

Inductive Microphone :=
| MediaDevicesMissing
| GetUserMediaRejects
| GetUserMediaResolves (stream : nat) (r : RecorderOutcome).

(** The collaborators that are not in these sources.  [fileToBase64] is
    utils/fileUtils.ts: it resolves to [{ base64, mimeType }] or rejects.
    [generateContent] is the remote endpoint behind the SDK: it resolves to
    a response whose [text] may be undefined, or rejects.  [typeErrorMessage]
    is the message of the TypeError the engine raises for [undefined.trim()].
    [objectURL n] is the n-th URL [URL.createObjectURL] hands out. *)
Record Platform := {
  envApiKey : option string;    (* process.env.API_KEY *)
  fileToBase64 : File -> Js.Completion (string * string);
  generateContent :
    string -> GenerateContentRequest -> Js.Completion (option string);
  typeErrorMessage : string;
  objectURL : nat -> string
}.

(** The state of [App] (ten [useState] cells and two refs), the state of
    [AudioUploader] that its handlers below use, and the browser. *)
#[projections(primitive)]
Record World := {
  audioFile : option File;
  isLoading : bool;
  analysisResult : string;
  error : string;
  apiKey : string;
  isKeySaved : bool;
  apiKeyError : string;
  isAudioFeedbackEnabled : bool;
  isRecording : bool;
  audioURL : option string;
  mediaRecorderRef : option MediaRecorder;
  audioChunksRef : list Blob;
  activeTab : Tab;
  statusMessage : string;
  localStorage : gmap string string;
  tasks : list Task;
  objectURLs : nat;
  log : list Effect
}.

(** *** State setters *)

Definition setAudioFile (v : option File) (w : World) : World :=
  {| audioFile := v; isLoading := isLoading w;
     analysisResult := analysisResult w; error := error w;
     apiKey := apiKey w; isKeySaved := isKeySaved w;
     apiKeyError := apiKeyError w;
     isAudioFeedbackEnabled := isAudioFeedbackEnabled w;
     isRecording := isRecording w; audioURL := audioURL w;
     mediaRecorderRef := mediaRecorderRef w;
     audioChunksRef := audioChunksRef w; activeTab := activeTab w;
     statusMessage := statusMessage w; localStorage := localStorage w;
     tasks := tasks w; objectURLs := objectURLs w; log := log w |}.

Definition setIsLoading (v : bool) (w : World) : World :=
  {| audioFile := audioFile w; isLoading := v;
     analysisResult := analysisResult w; error := error w;
     apiKey := apiKey w; isKeySaved := isKeySaved w;
     apiKeyError := apiKeyError w;
     isAudioFeedbackEnabled := isAudioFeedbackEnabled w;
     isRecording := isRecording w; audioURL := audioURL w;
     mediaRecorderRef := mediaRecorderRef w;
     audioChunksRef := audioChunksRef w; activeTab := activeTab w;
     statusMessage := statusMessage w; localStorage := localStorage w;
     tasks := tasks w; objectURLs := objectURLs w; log := log w |}.

Definition setAnalysisResult (v : string) (w : World) : World :=
  {| audioFile := audioFile w; isLoading := isLoading w; analysisResult := v;
     error := error w; apiKey := apiKey w; isKeySaved := isKeySaved w;
     apiKeyError := apiKeyError w;
     isAudioFeedbackEnabled := isAudioFeedbackEnabled w;
     isRecording := isRecording w; audioURL := audioURL w;
     mediaRecorderRef := mediaRecorderRef w;
     audioChunksRef := audioChunksRef w; activeTab := activeTab w;
     statusMessage := statusMessage w; localStorage := localStorage w;
     tasks := tasks w; objectURLs := objectURLs w; log := log w |}.

Definition setError (v : string) (w : World) : World :=
  {| audioFile := audioFile w; isLoading := isLoading w;
     analysisResult := analysisResult w; error := v; apiKey := apiKey w;
     isKeySaved := isKeySaved w; apiKeyError := apiKeyError w;
     isAudioFeedbackEnabled := isAudioFeedbackEnabled w;
     isRecording := isRecording w; audioURL := audioURL w;
     mediaRecorderRef := mediaRecorderRef w;
     audioChunksRef := audioChunksRef w; activeTab := activeTab w;
     statusMessage := statusMessage w; localStorage := localStorage w;
     tasks := tasks w; objectURLs := objectURLs w; log := log w |}.

Definition setApiKey (v : string) (w : World) : World :=
  {| audioFile := audioFile w; isLoading := isLoading w;
     analysisResult := analysisResult w; error := error w; apiKey := v;
     isKeySaved := isKeySaved w; apiKeyError := apiKeyError w;
     isAudioFeedbackEnabled := isAudioFeedbackEnabled w;
     isRecording := isRecording w; audioURL := audioURL w;
     mediaRecorderRef := mediaRecorderRef w;
     audioChunksRef := audioChunksRef w; activeTab := activeTab w;
     statusMessage := statusMessage w; localStorage := localStorage w;
     tasks := tasks w; objectURLs := objectURLs w; log := log w |}.

Definition setIsKeySaved (v : bool) (w : World) : World :=
  {| audioFile := audioFile w; isLoading := isLoading w;
     analysisResult := analysisResult w; error := error w;
     apiKey := apiKey w; isKeySaved := v; apiKeyError := apiKeyError w;
     isAudioFeedbackEnabled := isAudioFeedbackEnabled w;
     isRecording := isRecording w; audioURL := audioURL w;
     mediaRecorderRef := mediaRecorderRef w;
     audioChunksRef := audioChunksRef w; activeTab := activeTab w;
     statusMessage := statusMessage w; localStorage := localStorage w;
     tasks := tasks w; objectURLs := objectURLs w; log := log w |}.

Definition setApiKeyError (v : string) (w : World) : World :=
  {| audioFile := audioFile w; isLoading := isLoading w;
     analysisResult := analysisResult w; error := error w;
     apiKey := apiKey w; isKeySaved := isKeySaved w; apiKeyError := v;
     isAudioFeedbackEnabled := isAudioFeedbackEnabled w;
     isRecording := isRecording w; audioURL := audioURL w;
     mediaRecorderRef := mediaRecorderRef w;
     audioChunksRef := audioChunksRef w; activeTab := activeTab w;
     statusMessage := statusMessage w; localStorage := localStorage w;
     tasks := tasks w; objectURLs := objectURLs w; log := log w |}.

Definition setIsAudioFeedbackEnabled (v : bool) (w : World) : World :=
  {| audioFile := audioFile w; isLoading := isLoading w;
     analysisResult := analysisResult w; error := error w;
     apiKey := apiKey w; isKeySaved := isKeySaved w;
     apiKeyError := apiKeyError w; isAudioFeedbackEnabled := v;
     isRecording := isRecording w; audioURL := audioURL w;
     mediaRecorderRef := mediaRecorderRef w;
     audioChunksRef := audioChunksRef w; activeTab := activeTab w;
     statusMessage := statusMessage w; localStorage := localStorage w;
     tasks := tasks w; objectURLs := objectURLs w; log := log w |}.

Definition setIsRecording (v : bool) (w : World) : World :=
  {| audioFile := audioFile w; isLoading := isLoading w;
     analysisResult := analysisResult w; error := error w;
     apiKey := apiKey w; isKeySaved := isKeySaved w;
     apiKeyError := apiKeyError w;
     isAudioFeedbackEnabled := isAudioFeedbackEnabled w; isRecording := v;
     audioURL := audioURL w; mediaRecorderRef := mediaRecorderRef w;
     audioChunksRef := audioChunksRef w; activeTab := activeTab w;
     statusMessage := statusMessage w; localStorage := localStorage w;
     tasks := tasks w; objectURLs := objectURLs w; log := log w |}.

Definition setAudioURL (v : option string) (w : World) : World :=
  {| audioFile := audioFile w; isLoading := isLoading w;
     analysisResult := analysisResult w; error := error w;
     apiKey := apiKey w; isKeySaved := isKeySaved w;
     apiKeyError := apiKeyError w;
     isAudioFeedbackEnabled := isAudioFeedbackEnabled w;
     isRecording := isRecording w; audioURL := v;
     mediaRecorderRef := mediaRecorderRef w;
     audioChunksRef := audioChunksRef w; activeTab := activeTab w;
     statusMessage := statusMessage w; localStorage := localStorage w;
     tasks := tasks w; objectURLs := objectURLs w; log := log w |}.

Definition set_mediaRecorderRef (v : option MediaRecorder) (w : World) : World :=
  {| audioFile := audioFile w; isLoading := isLoading w;
     analysisResult := analysisResult w; error := error w;
     apiKey := apiKey w; isKeySaved := isKeySaved w;
     apiKeyError := apiKeyError w;
     isAudioFeedbackEnabled := isAudioFeedbackEnabled w;
     isRecording := isRecording w; audioURL := audioURL w;
     mediaRecorderRef := v; audioChunksRef := audioChunksRef w;
     activeTab := activeTab w; statusMessage := statusMessage w;
     localStorage := localStorage w; tasks := tasks w;
     objectURLs := objectURLs w; log := log w |}.

Definition set_audioChunksRef (v : list Blob) (w : World) : World :=
  {| audioFile := audioFile w; isLoading := isLoading w;
     analysisResult := analysisResult w; error := error w;
     apiKey := apiKey w; isKeySaved := isKeySaved w;
     apiKeyError := apiKeyError w;
     isAudioFeedbackEnabled := isAudioFeedbackEnabled w;
     isRecording := isRecording w; audioURL := audioURL w;
     mediaRecorderRef := mediaRecorderRef w; audioChunksRef := v;
     activeTab := activeTab w; statusMessage := statusMessage w;
     localStorage := localStorage w; tasks := tasks w;
     objectURLs := objectURLs w; log := log w |}.

Definition setActiveTab (v : Tab) (w : World) : World :=
  {| audioFile := audioFile w; isLoading := isLoading w;
     analysisResult := analysisResult w; error := error w;
     apiKey := apiKey w; isKeySaved := isKeySaved w;
     apiKeyError := apiKeyError w;
     isAudioFeedbackEnabled := isAudioFeedbackEnabled w;
     isRecording := isRecording w; audioURL := audioURL w;
     mediaRecorderRef := mediaRecorderRef w;
     audioChunksRef := audioChunksRef w; activeTab := v;
     statusMessage := statusMessage w; localStorage := localStorage w;
     tasks := tasks w; objectURLs := objectURLs w; log := log w |}.

Definition setStatusMessage (v : string) (w : World) : World :=
  {| audioFile := audioFile w; isLoading := isLoading w;
     analysisResult := analysisResult w; error := error w;
     apiKey := apiKey w; isKeySaved := isKeySaved w;
     apiKeyError := apiKeyError w;
     isAudioFeedbackEnabled := isAudioFeedbackEnabled w;
     isRecording := isRecording w; audioURL := audioURL w;
     mediaRecorderRef := mediaRecorderRef w;
     audioChunksRef := audioChunksRef w; activeTab := activeTab w;
     statusMessage := v; localStorage := localStorage w; tasks := tasks w;
     objectURLs := objectURLs w; log := log w |}.

Definition set_localStorage (v : gmap string string) (w : World) : World :=
  {| audioFile := audioFile w; isLoading := isLoading w;
     analysisResult := analysisResult w; error := error w;
     apiKey := apiKey w; isKeySaved := isKeySaved w;
     apiKeyError := apiKeyError w;
     isAudioFeedbackEnabled := isAudioFeedbackEnabled w;
     isRecording := isRecording w; audioURL := audioURL w;
     mediaRecorderRef := mediaRecorderRef w;
     audioChunksRef := audioChunksRef w; activeTab := activeTab w;
     statusMessage := statusMessage w; localStorage := v; tasks := tasks w;
     objectURLs := objectURLs w; log := log w |}.

Definition set_tasks (v : list Task) (w : World) : World :=
  {| audioFile := audioFile w; isLoading := isLoading w;
     analysisResult := analysisResult w; error := error w;
     apiKey := apiKey w; isKeySaved := isKeySaved w;
     apiKeyError := apiKeyError w;
     isAudioFeedbackEnabled := isAudioFeedbackEnabled w;
     isRecording := isRecording w; audioURL := audioURL w;
     mediaRecorderRef := mediaRecorderRef w;
     audioChunksRef := audioChunksRef w; activeTab := activeTab w;
     statusMessage := statusMessage w; localStorage := localStorage w;
     tasks := v; objectURLs := objectURLs w; log := log w |}.

Definition set_objectURLs (v : nat) (w : World) : World :=
  {| audioFile := audioFile w; isLoading := isLoading w;
     analysisResult := analysisResult w; error := error w;
     apiKey := apiKey w; isKeySaved := isKeySaved w;
     apiKeyError := apiKeyError w;
     isAudioFeedbackEnabled := isAudioFeedbackEnabled w;
     isRecording := isRecording w; audioURL := audioURL w;
     mediaRecorderRef := mediaRecorderRef w;
     audioChunksRef := audioChunksRef w; activeTab := activeTab w;
     statusMessage := statusMessage w; localStorage := localStorage w;
     tasks := tasks w; objectURLs := v; log := log w |}.

Definition set_log (v : list Effect) (w : World) : World :=
  {| audioFile := audioFile w; isLoading := isLoading w;
     analysisResult := analysisResult w; error := error w;
     apiKey := apiKey w; isKeySaved := isKeySaved w;
     apiKeyError := apiKeyError w;
     isAudioFeedbackEnabled := isAudioFeedbackEnabled w;
     isRecording := isRecording w; audioURL := audioURL w;
     mediaRecorderRef := mediaRecorderRef w;
     audioChunksRef := audioChunksRef w; activeTab := activeTab w;
     statusMessage := statusMessage w; localStorage := localStorage w;
     tasks := tasks w; objectURLs := objectURLs w; log := v |}.

Notation "w |> f" := (f w) (at level 45, left associativity, only parsing).

Definition emit (e : Effect) (w : World) : World := set_log (log w ++ [e]) w.

Definition emitAll (es : list Effect) (w : World) : World :=
  set_log (log w ++ es) w.

(** [if (isAudioFeedbackEnabled) playAudioFeedback(type)], the flag being the
    one the handler closed over. *)
Definition playIfEnabled (enabled : bool) (type : Cue) (w : World) : World :=
  if enabled then emit (PlayAudioFeedback type) w else w.

(** ** services/geminiService.ts *)

(** The instruction text sent with every clip (a template literal: it starts
    and ends with a line break). *)
Definition PROMPT : string :=
  "" +:+ Js.newline +:+
  "You are an expert voice analyst. Your task is to analyze the provided audio clip and generate a detailed, descriptive prompt that can be used in a Text-to-Speech (TTS) generator to replicate a similar voice style." +:+ Js.newline +:+
  "" +:+ Js.newline +:+
  "Analyze the following characteristics of the voice:" +:+ Js.newline +:+
  "- **Tone**: Is it warm, friendly, authoritative, calm, energetic, melancholic?" +:+ Js.newline +:+
  "- **Pitch**: Is it high, low, medium? Does it have a wide or narrow range?" +:+ Js.newline +:+
  "- **Pace**: Is the speech fast, slow, moderate? Are there pauses?" +:+ Js.newline +:+
  "- **Articulation**: Is it crisp and clear, or soft and mumbled?" +:+ Js.newline +:+
  "- **Timbre**: Describe the quality of the voice (e.g., raspy, smooth, breathy, rich, nasal)." +:+ Js.newline +:+
  "- **Emotion**: What emotions are conveyed? (e.g., happiness, sincerity, confidence)." +:+ Js.newline +:+
  "" +:+ Js.newline +:+
  "Based on your analysis, synthesize these elements into a concise and effective TTS prompt. The prompt should be a single paragraph of descriptive text. Start the description directly, without any preamble like " +:+ Js.dquote +:+ "This voice has..." +:+ Js.dquote +:+ " or " +:+ Js.dquote +:+ "Here is the description:" +:+ Js.dquote +:+ "." +:+ Js.newline +:+
  "" +:+ Js.newline +:+
  "Example Output:" +:+ Js.newline +:+
  "" +:+ Js.dquote +:+ "A medium-pitched male voice with a warm, friendly, and reassuring tone. The pace is moderate and conversational, with clear articulation. The timbre is smooth and rich, conveying a sense of calm confidence and sincerity." +:+ Js.dquote +:+ "" +:+ Js.newline +:+
  "".

Module Msg.
(** The sentences the sources show to the user. *)
Definition keyRequired : string :=
  "A valid Gemini API key is required to perform the analysis.".
Definition unknownError : string :=
  "An unknown error occurred while communicating with the Gemini API.".
Definition invalidKey : string :=
  "The provided API key is not valid or lacks the necessary permissions. Please check your key and try again.".
Definition quotaExceeded : string :=
  "You have exceeded your API quota. Please check your usage and billing information with Google AI Studio.".
Definition badRequest : string :=
  "The request was invalid. This may be due to a problem with the uploaded audio file or its format.".
Definition tryLater : string :=
  "An error occurred during analysis. Please try again later.".
Definition micDenied : string :=
  "Microphone access was denied. Please allow microphone access in your browser's settings to use this feature.".
Definition micUnsupported : string :=
  "Audio recording is not supported in this browser.".
Definition keyEmpty : string := "API key cannot be empty.".
Definition keyFormat : string :=
  "Invalid API key format. It should typically start with "
  +:+ Js.dquote +:+ "AIza" +:+ Js.dquote +:+ ".".
Definition missingInput : string :=
  "Please select or record an audio file first.".
Definition missingKey : string :=
  "Please enter and save your Gemini API key before analyzing.".
Definition invalidFileType : string :=
  "Invalid file type. Please upload an audio file.".
Definition unexpected : string :=
  "An unexpected error occurred. Please try again.".
End Msg.

(** The body of the [catch] block: the message of the Error it throws. *)
Definition userFriendlyMessage (error : Js.Thrown) : string :=
  match error with
  | Js.ThrownError m =>
      let message := Js.toLowerCase m in
      if Js.includes message "api key not valid"
         || Js.includes message "permission denied"
      then Msg.invalidKey
      else if Js.includes message "quota" then Msg.quotaExceeded
      else if Js.includes message "400 bad request" then Msg.badRequest
      else Msg.tryLater
  | Js.ThrownValue => Msg.unknownError
  end.

Section Service.
Context (P : Platform).

Definition request (base64Audio mimeType : string) : GenerateContentRequest :=
  {| model := "gemini-2.5-pro";
     parts := [inlineData base64Audio mimeType; textPart PROMPT] |}.

(** The calls the function makes, and what its promise settles to. *)
Definition analyzeVoiceTone (base64Audio mimeType apiKey : string)
  : list Effect * Js.Completion string :=
  if negb (Js.truthy apiKey) then ([], Js.Throw (Js.ThrownError Msg.keyRequired))
  else
    let call := GenerateContent apiKey (request base64Audio mimeType) in
    let caught (error : Js.Thrown) :=
      ([call; ConsoleError "Gemini API Request Failed: Full error object:"],
       Js.Throw (Js.ThrownError (userFriendlyMessage error))) in
    match generateContent P apiKey (request base64Audio mimeType) with
    | Js.Normal (Some text) => ([call], Js.Normal (Js.trim text))
    | Js.Normal None => caught (Js.ThrownError (typeErrorMessage P))
    | Js.Throw error => caught error
    end.

End Service.

(** ** App.tsx *)

Definition EXAMPLES : list (string * string) :=
  [ ("Warm & Friendly",
     "A medium-pitched female voice with a warm, friendly, and engaging tone. The pace is relaxed and conversational, with very clear articulation. The timbre is smooth and pleasant, conveying a sense of genuine sincerity and positivity.");
    ("Authoritative & Clear",
     "A low-pitched male voice with a confident and authoritative tone. The pace is deliberate and measured, with precise articulation, emphasizing key points. The timbre is rich and resonant, projecting professionalism and expertise.");
    ("Energetic & Upbeat",
     "A high-pitched female voice with an energetic and upbeat tone. The pace is fast and lively, with a dynamic range of inflection. The timbre is bright and crisp, conveying enthusiasm and excitement.") ].

Definition GEMINI_API_KEY : string := "GEMINI_API_KEY".
Definition AUDIO_FEEDBACK_ENABLED : string := "AUDIO_FEEDBACK_ENABLED".

Definition withState (r : MediaRecorder) (s : RecordingState) : MediaRecorder :=
  {| rec_state := s; rec_mimeType := rec_mimeType r; rec_stream := rec_stream r |}.

Section App.
Context (P : Platform).

Definition isEnvKeySet : bool := Js.truthyOpt (envApiKey P).

(** The first render.  [feedback] is what the lazy initialiser of
    [isAudioFeedbackEnabled] returned for the stored preference. *)
Definition initialWorld (feedback : bool) (storage : gmap string string)
  : World :=
  {| audioFile := None; isLoading := false; analysisResult := "";
     error := ""; apiKey := ""; isKeySaved := false; apiKeyError := "";
     isAudioFeedbackEnabled := feedback; isRecording := false;
     audioURL := None; mediaRecorderRef := None; audioChunksRef := [];
     activeTab := upload; statusMessage := ""; localStorage := storage;
     tasks := []; objectURLs := 0; log := [] |}.

(** The mount effect. *)
Definition loadSavedKey (w : World) : World :=
  if isEnvKeySet then w
  else match localStorage w !! GEMINI_API_KEY with
       | Some savedKey =>
           if Js.truthy savedKey
           then w |> setApiKey savedKey |> setIsKeySaved true
           else w
       | None => w
       end.

(** The application once mounted. *)
Definition mounted (feedback : bool) (storage : gmap string string) : World :=
  loadSavedKey (initialWorld feedback storage).

(** [mediaRecorderRef.current.stop()] on a recording recorder. *)
Definition recorderStop (r : MediaRecorder) (w : World) : World :=
  w |> set_mediaRecorderRef (Some (withState r inactive))
    |> set_tasks (tasks w ++ [RecorderStopped (rec_stream r)])
    |> emit (RecorderStop (rec_stream r)).

Definition handleStopRecording (w : World) : World :=
  match mediaRecorderRef w with
  | Some r =>
      if isRecordingState r
      then w |> recorderStop r |> setIsRecording false
      else w
  | None => w
  end.

Definition handleFileSelect (file : option File) (w : World) : World :=
  let w' := w |> setAudioFile file |> setAnalysisResult "" |> setError ""
              |> setAudioURL None in
  if bool_decide (is_Some (mediaRecorderRef w)) && isRecording w
  then handleStopRecording w'
  else w'.

Definition ondataavailable (data : Blob) (w : World) : World :=
  w |> set_audioChunksRef (audioChunksRef w ++ [data]).

Definition recorderMimeType (w : World) : string :=
  match mediaRecorderRef w with
  | Some r => if Js.truthy (rec_mimeType r) then rec_mimeType r else "audio/webm"
  | None => "audio/webm"
  end.

Definition recordedFile (chunks : list Blob) (mimeType : string) : File :=
  newFile [newBlob chunks mimeType]
          ("recording." +:+ Js.templateIndex (Js.split "/" mimeType) 1)
          mimeType.

Definition onstop (stream : nat) (w : World) : World :=
  let mimeType := recorderMimeType w in
  let audioUrl := objectURL P (objectURLs w) in
  w |> set_objectURLs (S (objectURLs w))
    |> setAudioURL (Some audioUrl)
    |> setAudioFile (Some (recordedFile (audioChunksRef w) mimeType))
    |> emit (TrackStop stream).

(** The browser runs the oldest queued recorder task; [data] is the audio
    the recorder captured. *)
Definition runTask (data : Blob) (w : World) : World :=
  match tasks w with
  | [] => w
  | RecorderStopped stream :: rest =>
      w |> set_tasks rest |> ondataavailable data |> onstop stream
  end.

(** The function is async; its one [await] is on [getUserMedia], and [mic]
    is what that promise and the recorder then do.  The body after the
    [await] runs with the flag read when the handler was called. *)
Definition handleStartRecording (mic : Microphone) (w : World) : World :=
  let enabled := isAudioFeedbackEnabled w in
  let w0 := w |> setError "" |> setAnalysisResult "" |> setAudioFile None
              |> setAudioURL None in
  let caught (w1 : World) :=
    w1 |> emit (ConsoleError "Error accessing microphone:")
       |> setError Msg.micDenied
       |> playIfEnabled enabled failure in
  match mic with
  | MediaDevicesMissing =>
      w0 |> setError Msg.micUnsupported |> playIfEnabled enabled failure
  | GetUserMediaRejects => w0 |> emit GetUserMedia |> caught
  | GetUserMediaResolves stream ConstructorThrows =>
      w0 |> emit GetUserMedia |> caught
  | GetUserMediaResolves stream (Constructed mimeType startThrows) =>
      let r := {| rec_state := inactive; rec_mimeType := mimeType;
                  rec_stream := stream |} in
      let w1 := w0 |> emit GetUserMedia |> emit (NewMediaRecorder stream)
                   |> set_mediaRecorderRef (Some r)
                   |> set_audioChunksRef [] in
      if startThrows then caught w1
      else w1 |> set_mediaRecorderRef (Some (withState r recording))
              |> emit (RecorderStart stream)
              |> setIsRecording true
  end.

Definition handleClearRecording (w : World) : World :=
  w |> setAudioURL None |> setAudioFile None.

Definition validateApiKey (key : string) (w : World) : bool * World :=
  let trimmedKey := Js.trim key in
  if negb (Js.truthy trimmedKey) then (false, w |> setApiKeyError Msg.keyEmpty)
  else if negb (Js.startsWith trimmedKey "AIza")
       then (false, w |> setApiKeyError Msg.keyFormat)
       else (true, w |> setApiKeyError "").

Definition handleApiKeySave (w : World) : World :=
  let '(valid, w1) := validateApiKey (apiKey w) w in
  if valid
  then w1 |> set_localStorage (<[GEMINI_API_KEY := apiKey w]> (localStorage w1))
          |> setIsKeySaved true
          |> setApiKeyError ""
  else w1.

Definition handleApiKeyEdit (w : World) : World :=
  w |> setIsKeySaved false |> setApiKeyError "".

Definition handleApiKeyChange (value : string) (w : World) : World :=
  let w1 := w |> setApiKey value in
  if Js.truthy (apiKeyError w) then w1 |> setApiKeyError "" else w1.

Definition finalApiKey (w : World) : string :=
  if isEnvKeySet then default "" (envApiKey P) else apiKey w.

(** The function is async; it awaits [fileToBase64] and [analyzeVoiceTone]
    and is taken here from its call to the end of its [finally] block. *)
Definition handleAnalyze (w : World) : World :=
  let enabled := isAudioFeedbackEnabled w in
  match audioFile w with
  | None => w |> setError Msg.missingInput |> playIfEnabled enabled failure
  | Some file =>
      if negb (Js.truthy (finalApiKey w))
      then w |> setError Msg.missingKey |> playIfEnabled enabled failure
      else
        let w1 := w |> setIsLoading true |> setAnalysisResult ""
                    |> setError "" in
        let '(calls, outcome) :=
          match fileToBase64 P file with
          | Js.Throw err => ([], Js.Throw err)
          | Js.Normal (base64, mimeType) =>
              if negb (Js.startsWith mimeType "audio/")
              then ([], Js.Throw (Js.ThrownError Msg.invalidFileType))
              else analyzeVoiceTone P base64 mimeType (finalApiKey w)
          end in
        let w2 := emitAll calls w1 in
        let w3 :=
          match outcome with
          | Js.Normal result =>
              w2 |> setAnalysisResult result |> playIfEnabled enabled success
          | Js.Throw err =>
              let errorMessage :=
                match err with
                | Js.ThrownError message => message
                | Js.ThrownValue => Msg.unexpected
                end in
              w2 |> setError errorMessage |> playIfEnabled enabled failure
          end in
        w3 |> setIsLoading false
  end.

Definition handleExampleClick (resultText : string) (w : World) : World :=
  w |> handleFileSelect None |> setAnalysisResult resultText
    |> playIfEnabled (isAudioFeedbackEnabled w) success.

Definition toggleAudioFeedback (w : World) : World :=
  let newState := negb (isAudioFeedbackEnabled w) in
  w |> set_localStorage
         (<[AUDIO_FEEDBACK_ENABLED := if newState then "true" else "false"]>
            (localStorage w))
    |> setIsAudioFeedbackEnabled newState.

Definition canAnalyze (w : World) : bool :=
  bool_decide (is_Some (audioFile w)) && negb (isLoading w)
  && (isEnvKeySet || isKeySaved w).

(** ** components/AudioUploader.tsx

    The props [file], [isRecording] and [audioURL] are the parent's state of
    the same render, and the callbacks are the parent's handlers. *)

Definition handleFileChange (files : option (list File)) (w : World) : World :=
  match files with
  | Some (f :: _) =>
      w |> handleFileSelect (Some f)
        |> setStatusMessage ("File selected: " +:+ file_name f)
  | _ =>
      let w1 := if bool_decide (is_Some (audioFile w))
                then w |> setStatusMessage "File removed." else w in
      handleFileSelect None w1
  end.

Definition handleTabChange (tab : Tab) (w : World) : World :=
  let w1 :=
    match tab with
    | record =>
        if bool_decide (is_Some (audioFile w)) then handleFileSelect None w
        else w
    | upload => w
    end in
  let w2 :=
    match tab with
    | upload =>
        if Js.truthyOpt (audioURL w) || isRecording w
        then w1 |> handleStopRecording |> handleClearRecording
        else w1
    | record => w1
    end in
  w2 |> setActiveTab tab.

(** ** The event loop *)

Inductive Event :=
| SelectFile (file : option File)
| StartRecording (mic : Microphone)
| StopRecording
| ClearRecording
| RecorderTask (data : Blob)
| FileChange (files : option (list File))
| TabChange (tab : Tab)
| ApiKeyChange (value : string)
| ApiKeySave
| ApiKeyEdit
| Analyze
| ExampleClick (resultText : string)
| ToggleAudioFeedback.

Definition step (w : World) (e : Event) : World :=
  match e with
  | SelectFile file => handleFileSelect file w
  | StartRecording mic => handleStartRecording mic w
  | StopRecording => handleStopRecording w
  | ClearRecording => handleClearRecording w
  | RecorderTask data => runTask data w
  | FileChange files => handleFileChange files w
  | TabChange tab => handleTabChange tab w
  | ApiKeyChange value => handleApiKeyChange value w
  | ApiKeySave => handleApiKeySave w
  | ApiKeyEdit => handleApiKeyEdit w
  | Analyze => handleAnalyze w
  | ExampleClick resultText => handleExampleClick resultText w
  | ToggleAudioFeedback => toggleAudioFeedback w
  end.

Definition run (events : list Event) (w : World) : World :=
  foldl step w events.

(** [stopRecording] of the specification: the handler, then the recorder's
    task with its [onstop] handler. *)
Definition stopRecordingCompleted (data : Blob) (w : World) : World :=
  w |> handleStopRecording |> runTask data.

End App.

(** ** Vocabulary of the properties *)

(** The message [validateApiKey] leaves for a key it rejects. *)
Definition rejectionMessage (key : string) : string :=
  if Js.truthy (Js.trim key) then Msg.keyFormat else Msg.keyEmpty.

(** What the [catch] block of [analyzeVoiceTone] catches, if anything: the
    rejection of the call, or the TypeError of trimming an undefined text. *)
Definition remoteFailure (P : Platform) (key : string)
    (req : GenerateContentRequest) : option Js.Thrown :=
  match generateContent P key req with
  | Js.Throw e => Some e
  | Js.Normal None => Some (Js.ThrownError (typeErrorMessage P))
  | Js.Normal (Some _) => None
  end.

(** The test the [catch] block applies to an Error's message. *)
Definition mentions (message keyword : string) : bool :=
  Js.includes (Js.toLowerCase message) keyword.

(** The property the recording handlers keep: a playback URL is there only
    together with a file to analyse. *)
Definition urlHasFile (w : World) : Prop :=
  is_Some (audioURL w) -> is_Some (audioFile w).

(** The property of the specification: not both at once. *)
Definition mutuallyExclusive (w : World) : Prop :=
  audioFile w = None \/ audioURL w = None.

(** The four calls of the state machine.  [stopRecording] is taken to the
    end of the recorder's [onstop] handler. *)
Inductive Call :=
| selectFile (file : option File)
| startRecording (mic : Microphone)
| stopRecording (data : Blob)
| clearRecording.

Definition call (P : Platform) (w : World) (c : Call) : World :=
  match c with
  | selectFile file => handleFileSelect file w
  | startRecording mic => handleStartRecording mic w
  | stopRecording data => stopRecordingCompleted P data w
  | clearRecording => handleClearRecording w
  end.

Definition calls (P : Platform) (cs : list Call) (w : World) : World :=
  foldl (call P) w cs.

Definition eventsOf (c : Call) : list Event :=
  match c with
  | selectFile file => [SelectFile file]
  | startRecording mic => [StartRecording mic]
  | stopRecording data => [StopRecording; RecorderTask data]
  | clearRecording => [ClearRecording]
  end.

(** ** The rendered controls

    [App] and [AudioUploader] render a control, or leave it enabled, only in
    some states; [enabled] is the condition of the JSX under which the
    control (or the browser, for the recorder's task) can raise the event.
    As in [step], the two async handlers run to their end before the next
    event is raised. *)

(** [fileName ? ...]: the selected file's name is shown, with the
    "Choose a different file" button. *)
Definition fileNameShown (w : World) : bool :=
  match audioFile w with
  | Some f => Js.truthy (file_name f)
  | None => false
  end.

Definition onTab (tab : Tab) (w : World) : bool :=
  match tab, activeTab w with
  | upload, upload | record, record => true
  | _, _ => false
  end.

Definition enabled (P : Platform) (w : World) (e : Event) : bool :=
  match e with
  | SelectFile _ => false     (* no control calls onFileSelect by itself *)
  | StartRecording _ =>
      onTab record w && negb (isRecording w)
      && negb (Js.truthyOpt (audioURL w)) && negb (isLoading w)
  | StopRecording => onTab record w && isRecording w
  | ClearRecording =>
      onTab record w && negb (isRecording w) && Js.truthyOpt (audioURL w)
  | RecorderTask _ => match tasks w with [] => false | _ :: _ => true end
  | FileChange None => onTab upload w && fileNameShown w
  | FileChange (Some _) => onTab upload w && negb (isLoading w)
  | TabChange _ => true
  | ApiKeyChange _ => negb (isEnvKeySet P) && negb (isKeySaved w)
  | ApiKeySave =>
      negb (isEnvKeySet P) && negb (isKeySaved w)
      && Js.truthy (Js.trim (apiKey w))
  | ApiKeyEdit => negb (isEnvKeySet P) && isKeySaved w
  | Analyze => canAnalyze P w
  | ExampleClick resultText =>
      negb (isLoading w) && bool_decide (resultText ∈ EXAMPLES.*2)
  | ToggleAudioFeedback => true
  end.

(** A session: the events are raised one after the other, each through a
    control that is enabled when it is raised. *)
Fixpoint uiRun (P : Platform) (events : list Event) (w : World)
  : option World :=
  match events with
  | [] => Some w
  | e :: rest => if enabled P w e then uiRun P rest (step P w e) else None
  end.

(** ** The stored audio-feedback preference *)

(** [JSON.parse] on the two texts [JSON.stringify] gives for a boolean.  The
    other texts, for which [JSON.parse] returns another value or throws, are
    left out. *)
Definition jsonParseBoolean (text : string) : option bool :=
  if String.eqb text "true" then Some true
  else if String.eqb text "false" then Some false
  else None.

(** The lazy initialiser of [isAudioFeedbackEnabled]:
    [savedPreference ? JSON.parse(savedPreference) : true]. *)
Definition initialFeedback (storage : gmap string string) : option bool :=
  match storage !! AUDIO_FEEDBACK_ENABLED with
  | Some savedPreference =>
      if Js.truthy savedPreference then jsonParseBoolean savedPreference
      else Some true
  | None => Some true
  end.

(** ** Reading the log *)

Fixpoint countIf {A : Type} (f : A -> bool) (l : list A) : nat :=
  match l with
  | [] => 0%nat
  | x :: rest => ((if f x then 1 else 0) + countIf f rest)%nat
  end.

Definition isCue (e : Effect) : bool :=
  match e with PlayAudioFeedback _ => true | _ => false end.

Definition isEndpointCall (e : Effect) : bool :=
  match e with GenerateContent _ _ => true | _ => false end.

Definition isRecorderStop (stream : nat) (e : Effect) : bool :=
  match e with RecorderStop s => Nat.eqb s stream | _ => false end.

Definition isTrackStop (stream : nat) (e : Effect) : bool :=
  match e with TrackStop s => Nat.eqb s stream | _ => false end.

Definition isPendingStop (stream : nat) (t : Task) : bool :=
  match t with RecorderStopped s => Nat.eqb s stream end.

Definition isAnalyze (e : Event) : bool :=
  match e with Analyze => true | _ => false end.

(** What one event appends to the log. *)
Definition added (P : Platform) (w : World) (e : Event) : list Effect :=
  drop (length (log w)) (log (step P w e)).

(** The recorder the ref points to is recording. *)
Definition recorderRecording (w : World) : bool :=
  match mediaRecorderRef w with
  | Some r => isRecordingState r
  | None => false
  end.

(** What holds between the events of a session. *)
Record sessionInvariant (w : World) : Prop := {
  inv_result_or_error : analysisResult w = "" \/ error w = "";
  inv_not_loading : isLoading w = false;
  inv_saved_key :
    isKeySaved w = true ->
    localStorage w !! GEMINI_API_KEY = Some (apiKey w)
    /\ Js.truthy (apiKey w) = true;
  inv_recording : isRecording w = recorderRecording w;
  inv_url_has_file : urlHasFile w
}.

(** For every stream: as many recorder stops as released streams and
    pending recorder tasks together. *)
Definition streamsAccounted (w : World) : Prop :=
  forall stream,
    countIf (isRecorderStop stream) (log w)
    = (countIf (isTrackStop stream) (log w)
       + countIf (isPendingStop stream) (tasks w))%nat.

(** ** components/ResultDisplay.tsx *)

Module ResultDisplay.

Inductive CopyStatus := idle | copied.

(** The component's state, the texts handed to [clipboard.writeText], and
    the number of armed two-second timers. *)
Record Display := {
  copyStatus : CopyStatus;
  clipboard : list string;
  timers : nat
}.

Definition initial : Display :=
  {| copyStatus := idle; clipboard := []; timers := 0 |}.

Definition handleCopy (resultText : string) (d : Display) : Display :=
  {| copyStatus := copied;
     clipboard := clipboard d ++ [resultText];
     timers := S (timers d) |}.

(** One armed timer fires: [() => setCopyStatus('idle')]. *)
Definition timeout (d : Display) : Display :=
  match timers d with
  | O => d
  | S n => {| copyStatus := idle; clipboard := clipboard d; timers := n |}
  end.

Inductive Event := Copy (resultText : string) | Timeout.

Definition step (d : Display) (e : Event) : Display :=
  match e with
  | Copy resultText => handleCopy resultText d
  | Timeout => timeout d
  end.

Definition run (events : list Event) (d : Display) : Display :=
  foldl step d events.

Definition copiedText (e : Event) : option string :=
  match e with Copy resultText => Some resultText | Timeout => None end.

End ResultDisplay.

(** ** utils/audioFeedback.ts *)

Module AudioFeedback.

Inductive ContextState := suspended | running | closed.

Inductive OscillatorType := sine | square.

(** The calls on the Web Audio API.  A time is [ctx.currentTime] plus the
    offset, in seconds; values and offsets are the literals of the source. *)
Inductive AudioCall :=
| newAudioContext
| resume
| createOscillator
| createGain
| connectOscillator        (* oscillator.connect(gainNode) *)
| connectGain              (* gainNode.connect(ctx.destination) *)
| setType (type : OscillatorType)
| frequencySetValueAtTime (value offset : Q)
| frequencyExponentialRamp (value offset : Q)
| gainSetValueAtTime (value offset : Q)
| gainLinearRamp (value offset : Q)
| gainExponentialRamp (value offset : Q)
| oscillatorStart (offset : Q)
| oscillatorStop (offset : Q).

(** The module-level [audioContext] (null until the first use) and the calls
    made so far. *)
Record Audio := { audioContext : bool; calls : list AudioCall }.

Definition initial : Audio := {| audioContext := false; calls := [] |}.

(** [supported] is [window.AudioContext || window.webkitAudioContext]. *)
Definition getAudioContext (supported : bool) (a : Audio) : bool * Audio :=
  if supported then
    if negb (audioContext a)
    then (true, {| audioContext := true; calls := calls a ++ [newAudioContext] |})
    else (true, a)
  else (false, a).

Definition tone (type : Cue) : list AudioCall :=
  match type with
  | success =>
      [setType sine;
       frequencySetValueAtTime 600 0;
       frequencyExponentialRamp 880 (1 # 10);
       gainLinearRamp (1 # 4) (1 # 100);
       gainExponentialRamp (1 # 10000) (1 # 5);
       oscillatorStart 0;
       oscillatorStop (1 # 5)]
  | failure =>
      [setType square;
       frequencySetValueAtTime 220 0;
       frequencyExponentialRamp 160 (15 # 100);
       gainLinearRamp (1 # 5) (1 # 100);
       gainExponentialRamp (1 # 10000) (1 # 4);
       oscillatorStart 0;
       oscillatorStop (1 # 4)]
  end.

(** [state] is [ctx.state] when the function is called. *)
Definition playAudioFeedback (supported : bool) (state : ContextState)
    (type : Cue) (a : Audio) : Audio :=
  let '(ctx, a1) := getAudioContext supported a in
  if negb ctx then a1
  else
    let resumed := match state with suspended => [resume] | _ => [] end in
    {| audioContext := audioContext a1;
       calls := calls a1 ++ resumed
                ++ [createOscillator; createGain; connectOscillator;
                    connectGain; gainSetValueAtTime 0 0]
                ++ tone type |}.

(** The cues of a session: the type of each and the state of the context
    when it is played. *)
Definition playAll (supported : bool) (cues : list (ContextState * Cue))
    (a : Audio) : Audio :=
  foldl (fun a c => playAudioFeedback supported c.1 c.2 a) a cues.

Definition isNewContext (c : AudioCall) : bool :=
  match c with newAudioContext => true | _ => false end.

Definition isStart (c : AudioCall) : bool :=
  match c with oscillatorStart _ => true | _ => false end.

Definition isStop (c : AudioCall) : bool :=
  match c with oscillatorStop _ => true | _ => false end.

Definition isResume (c : AudioCall) : bool :=
  match c with resume => true | _ => false end.

End AudioFeedback.

(** ** The two async handlers, phase by phase

    [handleStartRecording] awaits [getUserMedia]; [handleAnalyze] awaits
    [fileToBase64] and then the call of [analyzeVoiceTone].  Between a call
    and its continuation other events are handled.  A continuation runs on
    the state of its own moment, with the variables its handler closed over
    when it was called: the audio-feedback flag, and for [handleAnalyze] the
    file and the key. *)

Inductive InFlight :=
| AwaitingMicrophone (enabled : bool) (mic : Microphone)
| AwaitingFile (enabled : bool) (file : File) (key : string)
| AwaitingReply (enabled : bool) (base64 mimeType key : string).








(** The application with the handlers that are waiting. *)
Record Session := { world : World; inFlight : list InFlight }.

Definition idle (w : World) : Session := {| world := w; inFlight := [] |}.




(** ** Concrete collaborators and states, for evaluating the handlers *)

Module Demo.

(** A platform with no environment key, a file reader that hands back the
    file's bytes and type, and an endpoint answering [reply]. *)
Definition platform (reply : Js.Completion (option string)) : Platform :=
  {| envApiKey := None;
     fileToBase64 := fun f => Js.Normal (file_data f, file_type f);
     generateContent := fun _ _ => reply;
     typeErrorMessage := "Cannot read properties of undefined (reading 'trim')";
     objectURL := fun n => "blob:recording-" +:+ pretty n |}.

Definition answering : Platform :=
  platform (Js.Normal (Some " A calm, warm voice. ")).

Definition clip : File :=
  {| file_name := "clip.mp3"; file_data := "SUQz"; file_type := "audio/mpeg" |}.

Definition notes : File :=
  {| file_name := "notes.txt"; file_data := "aGVsbG8="; file_type := "text/plain" |}.

Definition chunk : Blob := {| blob_data := "GkXf"; blob_type := "audio/webm" |}.

Definition micGranted : Microphone :=
  GetUserMediaResolves 1 (Constructed "audio/webm" false).

(** A recorder that reports its codec, as recorders do. *)
Definition micOpus : Microphone :=
  GetUserMediaResolves 1 (Constructed "audio/webm;codecs=opus" false).

Definition fresh : World := mounted answering true ∅.

(** The text of the second example button. *)
Definition exampleText : string := (nth 1 EXAMPLES (EmptyString, EmptyString)).2.

(** Three sessions through the controls. *)
Definition analysisSession : list Event :=
  [ApiKeyChange "AIzaDemoKey"; ApiKeySave; FileChange (Some [notes]); Analyze;
   ExampleClick exampleText].

Definition keySession : list Event :=
  [ApiKeyChange " AIzaDemoKey"; ApiKeySave; ToggleAudioFeedback].

Definition recordingSession : list Event :=
  [TabChange record; StartRecording micGranted; TabChange upload].

End Demo.

(** * Properties *)

(** ** The model at work *)

Example trim_demo : Js.trim "  AIza k  " = "AIza k".
Proof. reflexivity. Qed.
Example split_demo : Js.split "/" "audio/webm" = ["audio"; "webm"].
Proof. reflexivity. Qed.
Example lower_demo : Js.toLowerCase "API Key Not VALID" = "api key not valid".
Proof. reflexivity. Qed.
Example includes_demo : Js.includes "xx quota yy" "quota" = true.
Proof. reflexivity. Qed.

Example upload_then_analyze :
  let w := run Demo.answering
             [ApiKeyChange "AIzaDemoKey"; ApiKeySave;
              SelectFile (Some Demo.clip); Analyze] Demo.fresh in
  analysisResult w = "A calm, warm voice." /\ error w = ""
  /\ log w = [GenerateContent "AIzaDemoKey" (request "SUQz" "audio/mpeg");
              PlayAudioFeedback success].
Proof. vm_compute. done. Qed.

Example record_then_stop :
  let w := run Demo.answering
             [TabChange record; StartRecording Demo.micGranted; StopRecording;
              RecorderTask Demo.chunk] Demo.fresh in
  audioURL w = Some "blob:recording-0"
  /\ audioFile w = Some {| file_name := "recording.webm"; file_data := "GkXf";
                           file_type := "audio/webm" |}
  /\ isRecording w = false /\ tasks w = [].
Proof. vm_compute. done. Qed.

(** ** Analysis without an audio source *)

(** C4.  When no audio file is selected, [handleAnalyze] sets the error to the
    missing-input sentence, plays the error cue exactly when audio feedback
    is enabled, makes no call to the analysis client or to the endpoint, and
    leaves [analysisResult], [isLoading], [apiKey] and everything else as
    they were. *)
Theorem handleAnalyze_without_audio (P : Platform) (w : World) :
  audioFile w = None ->
  let w' := handleAnalyze P w in
  error w' = Msg.missingInput
  /\ log w' = log w ++ (if isAudioFeedbackEnabled w
                        then [PlayAudioFeedback failure] else [])
  /\ (forall key req, GenerateContent key req ∉ drop (length (log w)) (log w'))
  /\ analysisResult w' = analysisResult w
  /\ isLoading w' = isLoading w
  /\ apiKey w' = apiKey w
  /\ w' = w |> setError Msg.missingInput
            |> playIfEnabled (isAudioFeedbackEnabled w) failure.
Proof.
  intros Hnone w'. subst w'. unfold handleAnalyze. rewrite Hnone.
  unfold playIfEnabled, emit.
  destruct (isAudioFeedbackEnabled w) eqn:Hfb; cbn.
  - repeat split; try done.
    intros key req. rewrite drop_app_length.
    intros Hin. apply list_elem_of_singleton in Hin. discriminate.
  - rewrite app_nil_r. repeat split; try done.
    intros key req. rewrite drop_all. apply not_elem_of_nil.
Qed.

Lemma handleAnalyze_without_audio_witness :
  audioFile Demo.fresh = None
  /\ error (handleAnalyze Demo.answering Demo.fresh) = Msg.missingInput
  /\ log (handleAnalyze Demo.answering Demo.fresh) = [PlayAudioFeedback failure].
Proof.
  split; [reflexivity |].
  pose proof (handleAnalyze_without_audio Demo.answering Demo.fresh eq_refl)
    as (He & Hl & _).
  split; [exact He | exact Hl].
Defined.

(** ** The API key *)

Lemma startsWith_truthy (s p : string) :
  Js.truthy p = true -> Js.startsWith s p = true -> Js.truthy s = true.
Proof. destruct p, s; simpl; congruence. Qed.

Lemma truthy_false_iff (s : string) : Js.truthy s = false <-> s = "".
Proof. destruct s; simpl; split; congruence. Qed.

(** C6.  A key whose trimmed form is empty or does not start with AIza is
    rejected: [validateApiKey] returns false and leaves a fixed, non-empty
    message in [apiKeyError] (the cannot-be-empty sentence for a blank key,
    the format sentence otherwise), and [handleApiKeySave] changes nothing
    but that message: the storage entry and [isKeySaved] stay as they
    were. *)
Theorem rejected_key_is_not_saved (key : string) (w : World) :
  Js.trim key = "" \/ Js.startsWith (Js.trim key) "AIza" = false ->
  (validateApiKey key w).1 = false
  /\ (Js.trim key = "" ->
      apiKeyError (validateApiKey key w).2 = Msg.keyEmpty)
  /\ (Js.trim key <> "" ->
      apiKeyError (validateApiKey key w).2 = Msg.keyFormat)
  /\ apiKeyError (validateApiKey key w).2 = rejectionMessage key
  /\ apiKeyError (validateApiKey key w).2 <> ""
  /\ validateApiKey key w = (false, setApiKeyError (rejectionMessage key) w)
  /\ (rejectionMessage key = Msg.keyEmpty \/ rejectionMessage key = Msg.keyFormat)
  /\ (apiKey w = key ->
      let w' := handleApiKeySave w in
      (Js.trim key = "" -> apiKeyError w' = Msg.keyEmpty)
      /\ (Js.trim key <> "" -> apiKeyError w' = Msg.keyFormat)
      /\ apiKeyError w' <> ""
      /\ w' = setApiKeyError (rejectionMessage key) w
      /\ localStorage w' = localStorage w
      /\ localStorage w' !! GEMINI_API_KEY = localStorage w !! GEMINI_API_KEY
      /\ isKeySaved w' = isKeySaved w
      /\ apiKey w' = apiKey w).
Proof.
  intros Hbad.
  assert (Hv : validateApiKey key w
               = (false, setApiKeyError (rejectionMessage key) w)).
  { unfold validateApiKey, rejectionMessage.
    destruct (Js.truthy (Js.trim key)) eqn:Ht; simpl; [| reflexivity].
    destruct Hbad as [He | Hp].
    - rewrite He in Ht. discriminate.
    - rewrite Hp. reflexivity. }
  assert (Hempty : Js.trim key = "" -> rejectionMessage key = Msg.keyEmpty).
  { intros He. unfold rejectionMessage. by rewrite He. }
  assert (Hformat : Js.trim key <> "" -> rejectionMessage key = Msg.keyFormat).
  { intros Hne. unfold rejectionMessage.
    destruct (Js.truthy (Js.trim key)) eqn:Ht; [done |].
    by apply truthy_false_iff in Ht. }
  assert (Hfixed : rejectionMessage key <> "").
  { unfold rejectionMessage. by destruct (Js.truthy (Js.trim key)). }
  rewrite Hv. cbn [fst snd].
  change (apiKeyError (setApiKeyError (rejectionMessage key) w))
    with (rejectionMessage key).
  split; [done |]. split; [done |]. split; [done |]. split; [done |].
  split; [done |]. split; [done |]. split.
  - unfold rejectionMessage. destruct (Js.truthy (Js.trim key)); auto.
  - intros Hkey. unfold handleApiKeySave.
    rewrite Hkey, Hv.
    change (apiKeyError (setApiKeyError (rejectionMessage key) w))
      with (rejectionMessage key).
    repeat split; done.
Qed.

Lemma rejected_key_is_not_saved_witness :
  let w := handleApiKeyChange "sk-123" Demo.fresh in
  Js.startsWith (Js.trim "sk-123") "AIza" = false
  /\ apiKeyError w = ""
  /\ apiKeyError (handleApiKeySave w) = Msg.keyFormat
  /\ handleApiKeySave w = setApiKeyError Msg.keyFormat w
  /\ localStorage (handleApiKeySave w) !! GEMINI_API_KEY = None.
Proof.
  intros w.
  destruct (rejected_key_is_not_saved "sk-123" w (or_intror eq_refl))
    as (_ & _ & _ & _ & _ & _ & _ & Hsave).
  destruct (Hsave eq_refl) as (_ & Hmsg & _ & Hw & _ & Hl & _).
  split; [reflexivity |]. split; [reflexivity |].
  split; [apply Hmsg; discriminate |]. split; [exact Hw | exact Hl].
Defined.

(** C9.  Validation looks at [key.trim()], persistence stores [key]: a key
    that carries leading or trailing white space around a text starting with
    AIza passes, and the storage entry then holds the key as typed, white
    space included. *)
Theorem untrimmed_key_is_stored_raw (w : World) :
  Js.startsWith (Js.trim (apiKey w)) "AIza" = true ->
  Js.trim (apiKey w) <> apiKey w ->
  let w' := handleApiKeySave w in
  validateApiKey (apiKey w) w = (true, setApiKeyError "" w)
  /\ localStorage w' = <[GEMINI_API_KEY := apiKey w]> (localStorage w)
  /\ localStorage w' !! GEMINI_API_KEY = Some (apiKey w)
  /\ localStorage w' !! GEMINI_API_KEY <> Some (Js.trim (apiKey w))
  /\ isKeySaved w' = true
  /\ apiKeyError w' = ""
  /\ apiKey w' = apiKey w.
Proof.
  intros Hp Hraw w'.
  assert (Hv : validateApiKey (apiKey w) w = (true, setApiKeyError "" w)).
  { unfold validateApiKey.
    rewrite (startsWith_truthy _ "AIza" eq_refl Hp), Hp. reflexivity. }
  subst w'. unfold handleApiKeySave. rewrite Hv. cbn.
  rewrite lookup_insert_eq.
  repeat split; try done.
  intros Heq. apply Hraw. congruence.
Qed.

Lemma untrimmed_key_is_stored_raw_witness :
  let w := handleApiKeyChange "  AIzaSyDemo " Demo.fresh in
  Js.trim (apiKey w) = "AIzaSyDemo"
  /\ localStorage (handleApiKeySave w) !! GEMINI_API_KEY = Some "  AIzaSyDemo ".
Proof.
  intros w. split; [reflexivity |].
  assert (Hne : Js.trim (apiKey w) <> apiKey w) by (vm_compute; discriminate).
  destruct (untrimmed_key_is_stored_raw w eq_refl Hne) as (_ & _ & Hl & _).
  exact Hl.
Defined.

(** ** Microphone permission *)

(** C7 as stated fails when the audio-feedback preference is off: the denial
    is reported and no cue plays. *)
Lemma denied_without_feedback_plays_no_cue :
  let w := handleStartRecording GetUserMediaRejects (initialWorld false ∅) in
  error w = Msg.micDenied
  /\ log w = [GetUserMedia; ConsoleError "Error accessing microphone:"]
  /\ PlayAudioFeedback failure ∉ log w.
Proof.
  cbn. repeat split.
  intros Hin. repeat (apply elem_of_cons in Hin as [Heq | Hin]; [discriminate |]).
  by apply not_elem_of_nil in Hin.
Qed.

(** C7, amended.  When [getUserMedia] rejects, [handleStartRecording] sets the
    error to a sentence containing "Microphone access was denied", plays the
    error cue exactly when audio feedback is enabled, constructs no
    MediaRecorder, and leaves the recorder ref, [isRecording], the chunk
    buffer and the task queue as they were. *)
Theorem microphone_denied (w : World) :
  let w' := handleStartRecording GetUserMediaRejects w in
  error w' = Msg.micDenied
  /\ Js.includes (error w') "Microphone access was denied" = true
  /\ log w' = log w ++ [GetUserMedia; ConsoleError "Error accessing microphone:"]
                    ++ (if isAudioFeedbackEnabled w
                        then [PlayAudioFeedback failure] else [])
  /\ mediaRecorderRef w' = mediaRecorderRef w
  /\ isRecording w' = isRecording w
  /\ audioChunksRef w' = audioChunksRef w
  /\ tasks w' = tasks w
  /\ analysisResult w' = "" /\ audioFile w' = None /\ audioURL w' = None.
Proof.
  cbn. unfold playIfEnabled, emit.
  destruct (isAudioFeedbackEnabled w); cbn;
    rewrite <- ?app_assoc; cbn; repeat split; try done.
Qed.

(** ** Selecting no file *)

(** C8 as stated fails after an example button was clicked: no file is
    selected, the result panel shows the example, and
    [handleFileSelect(null)] empties the result. *)
Lemma deselect_after_example_clears_result :
  let w := handleExampleClick "A low-pitched male voice." Demo.fresh in
  audioFile w = None
  /\ analysisResult w = "A low-pitched male voice."
  /\ analysisResult (handleFileSelect None w) = ""
  /\ handleFileSelect None w <> w.
Proof.
  cbn. repeat split. intros Heq.
  apply (f_equal analysisResult) in Heq. discriminate.
Qed.

(** C8, amended.  [handleFileSelect(null)] with no file selected reports
    nothing (no error sentence, no cue, no call to the client) and leaves
    [audioFile] null, but it still empties [analysisResult] and [error] and
    nulls [audioURL], and it stops a recorder that is running: the recorder
    becomes inactive, its stop task is queued and [isRecording] is set to
    false.  The state is left exactly as it was if and only if the result
    and the error are empty already, [audioURL] is null and no recording is
    in progress. *)
Theorem deselect_without_file (w : World) :
  audioFile w = None ->
  let w' := handleFileSelect None w in
  audioFile w' = None /\ analysisResult w' = "" /\ error w' = ""
  /\ audioURL w' = None
  /\ (forall e, e ∈ drop (length (log w)) (log w') ->
                exists stream, e = RecorderStop stream)
  /\ (forall r,
        mediaRecorderRef w = Some r -> rec_state r = recording ->
        isRecording w = true ->
        mediaRecorderRef w' = Some (withState r inactive)
        /\ isRecording w' = false
        /\ tasks w' = tasks w ++ [RecorderStopped (rec_stream r)]
        /\ log w' = log w ++ [RecorderStop (rec_stream r)])
  /\ (isRecording w && recorderRecording w = false ->
      mediaRecorderRef w' = mediaRecorderRef w /\ isRecording w' = isRecording w
      /\ tasks w' = tasks w /\ log w' = log w)
  /\ (analysisResult w = "" -> error w = "" -> audioURL w = None ->
      isRecording w = false -> w' = w)
  /\ (w' = w
      <-> analysisResult w = "" /\ error w = "" /\ audioURL w = None
          /\ isRecording w && recorderRecording w = false).
Proof.
  intros Hnone.
  assert (Hfields :
    audioFile (handleFileSelect None w) = None
    /\ analysisResult (handleFileSelect None w) = ""
    /\ error (handleFileSelect None w) = ""
    /\ audioURL (handleFileSelect None w) = None).
  { unfold handleFileSelect, handleStopRecording.
    destruct (_ && _); [| done]. cbn.
    destruct (mediaRecorderRef w) as [r |]; [| done].
    by destruct (isRecordingState r). }
  assert (Hstop : forall r,
    mediaRecorderRef w = Some r -> rec_state r = recording ->
    isRecording w = true ->
    mediaRecorderRef (handleFileSelect None w) = Some (withState r inactive)
    /\ isRecording (handleFileSelect None w) = false
    /\ tasks (handleFileSelect None w) = tasks w ++ [RecorderStopped (rec_stream r)]
    /\ log (handleFileSelect None w) = log w ++ [RecorderStop (rec_stream r)]).
  { intros r Href Hstate Hrec. unfold handleFileSelect.
    rewrite Href, Hrec, bool_decide_eq_true_2 by eauto. cbn.
    unfold handleStopRecording, isRecordingState. cbn.
    by rewrite Href, Hstate. }
  assert (Hkeep : isRecording w && recorderRecording w = false ->
    handleFileSelect None w
    = w |> setAudioFile None |> setAnalysisResult "" |> setError ""
        |> setAudioURL None).
  { intros Hidle. unfold handleFileSelect. unfold recorderRecording in Hidle.
    destruct (mediaRecorderRef w) as [r |] eqn:Href; cbn; [| done].
    destruct (isRecording w); cbn in *; [| done].
    unfold handleStopRecording. cbn. by rewrite Href, Hidle. }
  assert (Hsame : analysisResult w = "" -> error w = "" -> audioURL w = None ->
                  isRecording w && recorderRecording w = false ->
                  handleFileSelect None w = w).
  { intros Hres Herr Hurl Hidle. rewrite (Hkeep Hidle).
    destruct w. cbn in *. by subst. }
  cbn zeta. destruct Hfields as (Hf & Hr & He & Hu).
  do 4 (split; [done |]). split; [| split; [exact Hstop |]].
  - intros e.
    destruct (isRecording w && recorderRecording w) eqn:Hidle.
    + apply andb_prop in Hidle as [Hrec Hstate].
      unfold recorderRecording, isRecordingState in Hstate.
      destruct (mediaRecorderRef w) as [r |] eqn:Href; [| done].
      destruct (rec_state r) eqn:Hrs; try done.
      destruct (Hstop r eq_refl Hrs Hrec) as (_ & _ & _ & ->).
      rewrite drop_app_length. intros Hin.
      apply list_elem_of_singleton in Hin. eauto.
    + rewrite (Hkeep eq_refl). cbn. rewrite drop_all.
      intros Hin. by apply not_elem_of_nil in Hin.
  - split; [| split].
    + intros Hidle. by rewrite (Hkeep Hidle).
    + intros Hres Herr Hurl Hoff. apply Hsame; try done.
      by rewrite Hoff.
    + split.
      * intros Heq.
        rewrite <- Heq at 1 2 3. split; [done |]. split; [done |].
        split; [done |].
        destruct (isRecording w && recorderRecording w) eqn:Hidle; [| done].
        exfalso. apply andb_prop in Hidle as [Hrec Hstate].
        unfold recorderRecording, isRecordingState in Hstate.
        destruct (mediaRecorderRef w) as [r |] eqn:Href; [| done].
        destruct (rec_state r) eqn:Hrs; try done.
        destruct (Hstop r eq_refl Hrs Hrec) as (_ & Hoff & _).
        rewrite Heq in Hoff. rewrite Hoff in Hrec. discriminate.
      * intros (Hres & Herr & Hurl & Hidle). by apply Hsame.
Qed.

Lemma deselect_without_file_witness :
  let busy := handleStartRecording Demo.micGranted Demo.fresh in
  audioFile Demo.fresh = None
  /\ handleFileSelect None Demo.fresh = Demo.fresh
  /\ audioFile busy = None
  /\ isRecording busy = true
  /\ isRecording (handleFileSelect None busy) = false
  /\ tasks (handleFileSelect None busy) = [RecorderStopped 1].
Proof.
  intros busy.
  destruct (deselect_without_file Demo.fresh eq_refl)
    as (_ & _ & _ & _ & _ & _ & _ & Hsame & _).
  destruct (deselect_without_file busy eq_refl)
    as (_ & _ & _ & _ & _ & Hstop & _).
  destruct (Hstop {| rec_state := recording; rec_mimeType := "audio/webm";
                     rec_stream := 1 |} eq_refl eq_refl eq_refl)
    as (_ & Hoff & Htasks & _).
  split; [reflexivity |].
  split; [exact (Hsame eq_refl eq_refl eq_refl eq_refl) |].
  split; [reflexivity |]. split; [reflexivity |].
  split; [exact Hoff | exact Htasks].
Defined.

(** ** The media-type check *)

(** C3 as stated fails: [analyzeVoiceTone] called with a text media type and
    a key invokes the endpoint, and the call succeeds. *)
Lemma analyzeVoiceTone_accepts_text_plain :
  Js.startsWith "text/plain" "audio/" = false
  /\ analyzeVoiceTone Demo.answering "aGVsbG8=" "text/plain" "AIzaDemoKey"
     = ([GenerateContent "AIzaDemoKey" (request "aGVsbG8=" "text/plain")],
        Js.Normal "A calm, warm voice.").
Proof. split; reflexivity. Qed.

Lemma analyzeVoiceTone_calls_endpoint (P : Platform) (base64 mimeType key : string) :
  Js.truthy key = true ->
  exists rest outcome,
    analyzeVoiceTone P base64 mimeType key
    = (GenerateContent key (request base64 mimeType) :: rest, outcome).
Proof.
  intros Hkey. unfold analyzeVoiceTone. rewrite Hkey. cbn.
  destruct (generateContent P key (request base64 mimeType)) as [[text |] | e];
    eauto.
Qed.

(** C3, amended.  The media-type check is made by the caller: for a selected
    file whose media type does not start with audio/ (and with a key
    available), [handleAnalyze] ends with the error "Invalid file type.
    Please upload an audio file.", an empty result and [isLoading] false,
    having called neither [analyzeVoiceTone] nor the endpoint: the only log
    entry it adds is the error cue, when audio feedback is enabled.
    [analyzeVoiceTone] itself rejects an empty key before any network call
    and otherwise invokes the endpoint whatever the media type. *)
Theorem non_audio_file_is_rejected_by_handleAnalyze
    (P : Platform) (w : World) (file : File) (base64 mimeType : string) :
  audioFile w = Some file ->
  Js.truthy (finalApiKey P w) = true ->
  fileToBase64 P file = Js.Normal (base64, mimeType) ->
  Js.startsWith mimeType "audio/" = false ->
  let w' := handleAnalyze P w in
  error w' = Msg.invalidFileType
  /\ analysisResult w' = ""
  /\ isLoading w' = false
  /\ log w' = log w ++ (if isAudioFeedbackEnabled w
                        then [PlayAudioFeedback failure] else [])
  /\ (forall key req, GenerateContent key req ∉ drop (length (log w)) (log w'))
  /\ (forall b m, analyzeVoiceTone P b m ""
                  = ([], Js.Throw (Js.ThrownError Msg.keyRequired)))
  /\ (forall b m key, Js.truthy key = true ->
        exists rest outcome,
          analyzeVoiceTone P b m key
          = (GenerateContent key (request b m) :: rest, outcome)).
Proof.
  intros Hfile Hkey Hread Hmime w'. subst w'.
  unfold handleAnalyze. rewrite Hfile, Hkey, Hread, Hmime. cbn.
  unfold emitAll, playIfEnabled, emit. cbn. rewrite app_nil_r.
  destruct (isAudioFeedbackEnabled w); cbn.
  - repeat split; try done.
    + intros key req. rewrite drop_app_length.
      intros Hin. apply list_elem_of_singleton in Hin. discriminate.
    + intros b m key Hk. by apply analyzeVoiceTone_calls_endpoint.
  - rewrite app_nil_r. repeat split; try done.
    + intros key req. rewrite drop_all. apply not_elem_of_nil.
    + intros b m key Hk. by apply analyzeVoiceTone_calls_endpoint.
Qed.

Lemma non_audio_file_is_rejected_by_handleAnalyze_witness :
  let w := run Demo.answering
             [ApiKeyChange "AIzaDemoKey"; ApiKeySave; SelectFile (Some Demo.notes)]
             Demo.fresh in
  audioFile w = Some Demo.notes
  /\ error (handleAnalyze Demo.answering w) = Msg.invalidFileType
  /\ log (handleAnalyze Demo.answering w) = [PlayAudioFeedback failure].
Proof.
  intros w. split; [reflexivity |].
  destruct (non_audio_file_is_rejected_by_handleAnalyze
              Demo.answering w Demo.notes "aGVsbG8=" "text/plain"
              eq_refl eq_refl eq_refl eq_refl) as (He & _ & _ & Hl & _).
  split; [exact He | exact Hl].
Defined.

(** ** Failures of the remote call *)

(** C5 as stated fails when the endpoint rejects with a value that is not an
    Error: the message thrown to the caller is a fifth sentence, none of the
    four selected by keyword. *)
Lemma non_error_rejection_gets_fifth_sentence :
  let P := Demo.platform (Js.Throw Js.ThrownValue) in
  snd (analyzeVoiceTone P "SUQz" "audio/mpeg" "AIzaDemoKey")
  = Js.Throw (Js.ThrownError Msg.unknownError)
  /\ Msg.unknownError
     ∉ [Msg.invalidKey; Msg.quotaExceeded; Msg.badRequest; Msg.tryLater].
Proof.
  split; [reflexivity |].
  intros Hin. repeat (apply elem_of_cons in Hin as [Heq | Hin]; [discriminate |]).
  by apply not_elem_of_nil in Hin.
Qed.

(** A technical message that is itself a fragment of a fixed sentence is
    contained in what the user sees. *)
Lemma quota_message_is_contained_in_its_sentence :
  let P := Demo.platform (Js.Throw (Js.ThrownError "quota")) in
  snd (analyzeVoiceTone P "SUQz" "audio/mpeg" "AIzaDemoKey")
  = Js.Throw (Js.ThrownError Msg.quotaExceeded)
  /\ Js.includes Msg.quotaExceeded "quota" = true.
Proof. split; reflexivity. Qed.

(** C5, amended.  For every failure caught inside [analyzeVoiceTone] the
    error thrown to the caller carries exactly one of five fixed sentences:
    for an Error, the invalid-key, quota, bad-request or try-later sentence,
    selected in that order by case-insensitive keyword search in its
    message; for any other thrown value, the unknown-error sentence.  The
    thrown message is one of these constants, chosen by those tests alone;
    the original message is only written to the console. *)
Theorem remote_failure_message
    (P : Platform) (base64 mimeType key : string) (e : Js.Thrown) :
  Js.truthy key = true ->
  remoteFailure P key (request base64 mimeType) = Some e ->
  analyzeVoiceTone P base64 mimeType key
  = ([GenerateContent key (request base64 mimeType);
      ConsoleError "Gemini API Request Failed: Full error object:"],
     Js.Throw (Js.ThrownError (userFriendlyMessage e)))
  /\ userFriendlyMessage e
     ∈ [Msg.invalidKey; Msg.quotaExceeded; Msg.badRequest; Msg.tryLater;
        Msg.unknownError]
  /\ match e with
     | Js.ThrownValue => userFriendlyMessage e = Msg.unknownError
     | Js.ThrownError m =>
         userFriendlyMessage e =
           if mentions m "api key not valid" || mentions m "permission denied"
           then Msg.invalidKey
           else if mentions m "quota" then Msg.quotaExceeded
           else if mentions m "400 bad request" then Msg.badRequest
           else Msg.tryLater
     end
  /\ (forall m m',
        e = Js.ThrownError m ->
        mentions m' "api key not valid" || mentions m' "permission denied"
        = mentions m "api key not valid" || mentions m "permission denied" ->
        mentions m' "quota" = mentions m "quota" ->
        mentions m' "400 bad request" = mentions m "400 bad request" ->
        userFriendlyMessage (Js.ThrownError m') = userFriendlyMessage e).
Proof.
  intros Hkey Hfail. split; [| split; [| split]].
  - unfold analyzeVoiceTone, remoteFailure in *. rewrite Hkey.
    destruct (generateContent P key (request base64 mimeType)) as [[text |] | e'];
      [discriminate | |]; injection Hfail as <-; reflexivity.
  - destruct e as [m |]; cbn; [| set_solver].
    destruct (_ || _); [set_solver |].
    destruct (Js.includes _ "quota"); [set_solver |].
    destruct (Js.includes _ "400 bad request"); set_solver.
  - destruct e as [m |]; reflexivity.
  - intros m m' -> H1 H2 H3. unfold userFriendlyMessage.
    fold (mentions m "api key not valid") (mentions m "permission denied")
         (mentions m "quota") (mentions m "400 bad request")
         (mentions m' "api key not valid") (mentions m' "permission denied")
         (mentions m' "quota") (mentions m' "400 bad request").
    by rewrite H1, H2, H3.
Qed.

Lemma remote_failure_message_witness :
  let P := Demo.platform (Js.Throw (Js.ThrownError "[403] Permission Denied")) in
  snd (analyzeVoiceTone P "SUQz" "audio/mpeg" "AIzaDemoKey")
  = Js.Throw (Js.ThrownError Msg.invalidKey).
Proof.
  intros P.
  destruct (remote_failure_message P "SUQz" "audio/mpeg" "AIzaDemoKey"
              (Js.ThrownError "[403] Permission Denied") eq_refl eq_refl)
    as (Hrun & _).
  rewrite Hrun. reflexivity.
Defined.

(** ** The selected file and the recording *)

(** What each handler does to [audioFile] and [audioURL]. *)

Lemma handleStopRecording_audio (w : World) :
  audioFile (handleStopRecording w) = audioFile w
  /\ audioURL (handleStopRecording w) = audioURL w.
Proof.
  unfold handleStopRecording.
  destruct (mediaRecorderRef w) as [r |]; [| done].
  destruct (isRecordingState r); done.
Qed.

Lemma handleFileSelect_audio (file : option File) (w : World) :
  audioFile (handleFileSelect file w) = file
  /\ audioURL (handleFileSelect file w) = None.
Proof.
  unfold handleFileSelect.
  destruct (_ && _); [| done].
  destruct (handleStopRecording_audio
              (w |> setAudioFile file |> setAnalysisResult "" |> setError ""
                 |> setAudioURL None)) as [-> ->].
  done.
Qed.

Lemma handleStartRecording_audio (mic : Microphone) (w : World) :
  audioFile (handleStartRecording mic w) = None
  /\ audioURL (handleStartRecording mic w) = None.
Proof.
  unfold handleStartRecording, playIfEnabled.
  destruct mic as [| | stream [| mimeType [|]]];
    destruct (isAudioFeedbackEnabled w); done.
Qed.

Lemma handleClearRecording_audio (w : World) :
  audioFile (handleClearRecording w) = None
  /\ audioURL (handleClearRecording w) = None.
Proof. done. Qed.

Lemma onstop_audio (P : Platform) (stream : nat) (w : World) :
  audioFile (onstop P stream w)
  = Some (recordedFile (audioChunksRef w) (recorderMimeType w))
  /\ audioURL (onstop P stream w) = Some (objectURL P (objectURLs w)).
Proof. done. Qed.

Lemma runTask_audio (P : Platform) (data : Blob) (w : World) :
  (tasks w = [] /\ runTask P data w = w)
  \/ (tasks w <> []
      /\ audioFile (runTask P data w)
         = Some (recordedFile (audioChunksRef w ++ [data]) (recorderMimeType w))
      /\ audioURL (runTask P data w) = Some (objectURL P (objectURLs w))).
Proof.
  unfold runTask. destruct (tasks w) as [| [stream] rest]; [by left | right].
  done.
Qed.

Lemma handleAnalyze_audio (P : Platform) (w : World) :
  audioFile (handleAnalyze P w) = audioFile w
  /\ audioURL (handleAnalyze P w) = audioURL w.
Proof.
  unfold handleAnalyze, playIfEnabled, emitAll.
  destruct (audioFile w) as [file |] eqn:Hfile;
    [| by destruct (isAudioFeedbackEnabled w)].
  destruct (negb _); [by destruct (isAudioFeedbackEnabled w) |].
  destruct (match fileToBase64 P file with
            | Js.Normal (base64, mimeType) => _
            | Js.Throw err => _
            end) as [calls [result | err]];
    destruct (isAudioFeedbackEnabled w); done.
Qed.

Lemma handleApiKeySave_audio (w : World) :
  audioFile (handleApiKeySave w) = audioFile w
  /\ audioURL (handleApiKeySave w) = audioURL w.
Proof.
  unfold handleApiKeySave, validateApiKey.
  destruct (negb _); [done |]. destruct (negb _); done.
Qed.

Lemma urlHasFile_by_cases (w : World) :
  audioURL w = None \/ is_Some (audioFile w) -> urlHasFile w.
Proof.
  intros [Hnone | Hfile] Hurl; [| done].
  rewrite Hnone in Hurl. by destruct Hurl.
Qed.

Lemma step_urlHasFile (P : Platform) (w : World) (e : Event) :
  urlHasFile w -> urlHasFile (step P w e).
Proof.
  intros Hinv. destruct e as [file | mic | | | data | files | tab | value | | | |
                               resultText |]; cbn [step].
  - apply urlHasFile_by_cases. left. apply handleFileSelect_audio.
  - apply urlHasFile_by_cases. left. apply handleStartRecording_audio.
  - unfold urlHasFile.
    by destruct (handleStopRecording_audio w) as [-> ->].
  - apply urlHasFile_by_cases. by left.
  - destruct (runTask_audio P data w) as [[_ ->] | (_ & Hfile & _)]; [done |].
    apply urlHasFile_by_cases. right. by rewrite Hfile.
  - apply urlHasFile_by_cases. left. unfold handleFileChange.
    destruct files as [[| f fs] |]; cbn; apply handleFileSelect_audio.
  - apply urlHasFile_by_cases. unfold handleTabChange.
    destruct tab.
    + destruct (_ || _) eqn:Hrec; [by left |].
      apply orb_false_elim in Hrec as [Hurl _].
      destruct (audioURL w) as [u |] eqn:Hu; [| by left].
      right. cbn. apply Hinv. by rewrite Hu.
    + destruct (bool_decide _) eqn:Hfile; cbn.
      * left. apply handleFileSelect_audio.
      * apply bool_decide_eq_false in Hfile.
        destruct (audioURL w) as [u |] eqn:Hu; [| by left].
        exfalso. apply Hfile, Hinv. by rewrite Hu.
  - unfold handleApiKeyChange. by destruct (Js.truthy _).
  - unfold urlHasFile. by destruct (handleApiKeySave_audio w) as [-> ->].
  - done.
  - unfold urlHasFile. by destruct (handleAnalyze_audio P w) as [-> ->].
  - apply urlHasFile_by_cases. left. unfold handleExampleClick, playIfEnabled.
    destruct (isAudioFeedbackEnabled w); cbn; apply handleFileSelect_audio.
  - done.
Qed.

Lemma mounted_urlHasFile (P : Platform) (feedback : bool)
    (storage : gmap string string) :
  urlHasFile (mounted P feedback storage).
Proof.
  apply urlHasFile_by_cases. left. unfold mounted, loadSavedKey.
  destruct (isEnvKeySet P); [done |].
  destruct (_ !! _) as [savedKey |]; [| done].
  by destruct (Js.truthy savedKey).
Qed.

Lemma run_urlHasFile (P : Platform) (events : list Event) (w : World) :
  urlHasFile w -> urlHasFile (run P events w).
Proof.
  revert w. induction events as [| e events IH]; intros w Hinv; [done |].
  cbn. apply IH. by apply step_urlHasFile.
Qed.

Lemma calls_run (P : Platform) (cs : list Call) (w : World) :
  calls P cs w = run P (concat (map eventsOf cs)) w.
Proof.
  unfold calls, run. revert w.
  induction cs as [| c cs IH]; intros w; [done |].
  cbn [foldl map concat]. rewrite foldl_app, IH. by destruct c.
Qed.

(** C1 as stated fails on recording and stopping: once the [onstop] handler
    has run, the file and the URL are both set. *)
Lemma finished_recording_sets_file_and_url :
  let w := calls Demo.answering
             [startRecording Demo.micGranted; stopRecording Demo.chunk]
             Demo.fresh in
  audioFile w = Some {| file_name := "recording.webm"; file_data := "GkXf";
                        file_type := "audio/webm" |}
  /\ audioURL w = Some "blob:recording-0"
  /\ ~ mutuallyExclusive w.
Proof.
  cbn. repeat split. intros [Hfile | Hurl]; discriminate.
Qed.

(** C1, amended.  [selectFile], [startRecording] and [clearRecording] leave
    [audioURL] null when they return, the last two [audioFile] as well;
    [stopRecording] itself changes neither, and once the [onstop] handler of a
    recording recorder has run both are set, [audioURL] to the playback URL
    and [audioFile] to the File built from the same chunks.  After every
    sequence of these calls, [audioURL] is non-null only if [audioFile] is. *)
Theorem recording_url_comes_with_its_file (P : Platform) :
  (forall file w, audioFile (handleFileSelect file w) = file
                  /\ audioURL (handleFileSelect file w) = None)
  /\ (forall mic w, audioFile (handleStartRecording mic w) = None
                    /\ audioURL (handleStartRecording mic w) = None)
  /\ (forall w, audioFile (handleClearRecording w) = None
                /\ audioURL (handleClearRecording w) = None)
  /\ (forall w, audioFile (handleStopRecording w) = audioFile w
                /\ audioURL (handleStopRecording w) = audioURL w)
  /\ (forall data w r,
        mediaRecorderRef w = Some r -> rec_state r = recording ->
        let w' := stopRecordingCompleted P data w in
        audioFile w'
        = Some (recordedFile (audioChunksRef w ++ [data]) (recorderMimeType w))
        /\ audioURL w' = Some (objectURL P (objectURLs w)))
  /\ (forall cs feedback storage,
        urlHasFile (calls P cs (mounted P feedback storage))).
Proof.
  split; [apply handleFileSelect_audio |].
  split; [apply handleStartRecording_audio |].
  split; [apply handleClearRecording_audio |].
  split; [apply handleStopRecording_audio |].
  split.
  - intros data w r Href Hstate w'. subst w'.
    unfold stopRecordingCompleted, handleStopRecording, isRecordingState.
    rewrite Href, Hstate. unfold runTask. cbn.
    destruct (tasks w) as [| [stream] rest]; cbn;
      unfold recorderMimeType; cbn; rewrite Href; done.
  - intros cs feedback storage. rewrite calls_run.
    apply run_urlHasFile, mounted_urlHasFile.
Qed.

(** ** Switching the input tab *)

Lemma handleTabChange_record (w : World) :
  let w' := handleTabChange record w in
  audioFile w' = None /\ activeTab w' = record
  /\ (is_Some (audioFile w) -> audioURL w' = None).
Proof.
  unfold handleTabChange.
  destruct (bool_decide (is_Some (audioFile w))) eqn:Hfile; cbn.
  - destruct (handleFileSelect_audio None w) as [-> ->]; done.
  - apply bool_decide_eq_false in Hfile.
    destruct (audioFile w) as [f |]; [| done].
    exfalso. apply Hfile. by exists f.
Qed.

Lemma handleTabChange_upload (w : World) :
  Js.truthyOpt (audioURL w) || isRecording w = true ->
  let w' := handleTabChange upload w in
  audioFile w' = None /\ audioURL w' = None /\ activeTab w' = upload.
Proof. intros Hrec. unfold handleTabChange. by rewrite Hrec. Qed.

(** Leaving the record tab while the recorder is running: the handler stops
    the recorder and clears the recording, and the recorder's [onstop]
    handler, which runs afterwards, installs the recording again. *)
Lemma upload_tab_during_recording (P : Platform) (data : Blob) (w : World)
    (r : MediaRecorder) :
  mediaRecorderRef w = Some r -> rec_state r = recording -> isRecording w = true ->
  let w' := runTask P data (handleTabChange upload w) in
  activeTab w' = upload /\ is_Some (audioFile w') /\ is_Some (audioURL w').
Proof.
  intros Href Hstate Hrec w'. subst w'.
  unfold handleTabChange. rewrite Hrec, orb_true_r.
  unfold handleStopRecording, isRecordingState. rewrite Href, Hstate.
  unfold runTask. cbn. destruct (tasks w) as [| [stream] rest]; cbn; done.
Qed.

(** C2, at the failing input.  The user starts a recording on the record tab
    and clicks the upload tab while it runs.  When [handleTabChange] returns
    the recording is cleared; when the recorder's queued task has run, the
    upload tab is showing and both [audioFile] and [audioURL] hold the
    recording. *)
Theorem tab_switch_while_recording_keeps_the_recording :
  let w0 := run Demo.answering
              [TabChange record; StartRecording Demo.micGranted] Demo.fresh in
  let w1 := handleTabChange upload w0 in
  let w2 := runTask Demo.answering Demo.chunk w1 in
  isRecording w0 = true
  /\ audioFile w1 = None /\ audioURL w1 = None
  /\ tasks w1 = [RecorderStopped 1]
  /\ activeTab w2 = upload
  /\ audioFile w2 = Some {| file_name := "recording.webm"; file_data := "GkXf";
                            file_type := "audio/webm" |}
  /\ audioURL w2 = Some "blob:recording-0".
Proof. vm_compute. done. Qed.

(** ** The finished recording *)

Lemma split_without_separator (s : string) :
  Js.includes s "/" = false -> Js.split "/" s = [s].
Proof.
  induction s as [| c s IH]; [done |].
  cbn [Js.includes Js.startsWith Js.split]. rewrite (Ascii.eqb_sym c).
  destruct (Ascii.eqb "/" c); [by destruct s |].
  cbn. intros Hs. by rewrite (IH Hs).
Qed.

Lemma split_type_subtype (ty sub : string) :
  Js.includes ty "/" = false -> Js.includes sub "/" = false ->
  Js.split "/" (ty +:+ "/" +:+ sub) = [ty; sub].
Proof.
  intros Hty Hsub. induction ty as [| c ty IH].
  - change (Js.split "/" ("" +:+ "/" +:+ sub)) with ("" :: Js.split "/" sub).
    by rewrite (split_without_separator sub Hsub).
  - change (String c ty +:+ "/" +:+ sub) with (String c (ty +:+ "/" +:+ sub)).
    revert Hty. cbn [Js.includes Js.startsWith Js.split].
    rewrite (Ascii.eqb_sym c).
    destruct (Ascii.eqb "/" c); [by destruct ty |].
    cbn [orb]. intros Hty. by rewrite (IH Hty).
Qed.

(** [handleAnalyze] reads the audio through [audioFile] alone. *)
Lemma handleAnalyze_same_source (P : Platform) (w1 w2 : World) :
  audioFile w1 = audioFile w2 -> apiKey w1 = apiKey w2 ->
  isAudioFeedbackEnabled w1 = isAudioFeedbackEnabled w2 ->
  analysisResult w1 = analysisResult w2 -> isLoading w1 = isLoading w2 ->
  exists new,
    log (handleAnalyze P w1) = log w1 ++ new
    /\ log (handleAnalyze P w2) = log w2 ++ new
    /\ analysisResult (handleAnalyze P w1) = analysisResult (handleAnalyze P w2)
    /\ error (handleAnalyze P w1) = error (handleAnalyze P w2)
    /\ isLoading (handleAnalyze P w1) = isLoading (handleAnalyze P w2).
Proof.
  intros Hfile Hkey Hfb Hres Hload.
  assert (Hfinal : finalApiKey P w1 = finalApiKey P w2).
  { unfold finalApiKey. by rewrite Hkey. }
  unfold handleAnalyze, playIfEnabled, emitAll, emit.
  rewrite Hfile, Hfb, Hfinal.
  destruct (audioFile w2) as [file |].
  - destruct (negb _).
    + destruct (isAudioFeedbackEnabled w2); cbn; eexists; repeat split;
        rewrite ?app_nil_r; done.
    + destruct (match fileToBase64 P file with
                | Js.Normal (base64, mimeType) => _
                | Js.Throw err => _
                end) as [calls [result | err]];
        destruct (isAudioFeedbackEnabled w2); cbn;
        rewrite <- ?app_assoc; eexists; repeat split; done.
  - destruct (isAudioFeedbackEnabled w2); cbn; eexists; repeat split;
      rewrite ?app_nil_r; done.
Qed.

Lemma append_empty_r (s : string) : s +:+ "" = s.
Proof.
  induction s as [| c s IH]; [done |].
  change (String c s +:+ "") with (String c (s +:+ "")). by rewrite IH.
Qed.

Lemma recordedFile_data (chunks : list Blob) (mimeType : string) :
  file_data (recordedFile chunks mimeType) = blob_data (newBlob chunks mimeType).
Proof. cbn. apply append_empty_r. Qed.

Lemma newBlob_data (chunks : list Blob) (mimeType : string) :
  blob_data (newBlob chunks mimeType) = String.concat "" (map blob_data chunks).
Proof.
  cbn. induction chunks as [| b chunks IH]; [done |].
  cbn [foldr map]. rewrite IH.
  destruct chunks as [| b' chunks]; [exact (append_empty_r _) | reflexivity].
Qed.

(** C10 as stated fails for a recorder that reports its codec: the media
    type is audio/webm;codecs=opus, its subtype is webm, and the file is
    named after everything that follows the slash. *)
Lemma recording_name_keeps_codec_parameters :
  let w := run Demo.answering
             [StartRecording Demo.micOpus; StopRecording;
              RecorderTask Demo.chunk] Demo.fresh in
  recorderMimeType w = "audio/webm;codecs=opus"
  /\ audioFile w
     = Some {| file_name := "recording.webm;codecs=opus"; file_data := "GkXf";
               file_type := "audio/webm;codecs=opus" |}
  /\ (forall f, audioFile w = Some f -> file_name f <> "recording.webm").
Proof.
  cbn. repeat split. intros f Hf. injection Hf as <-. cbn. discriminate.
Qed.

(** C10, amended.  When the recorder's [onstop] handler runs, the buffered
    chunks become one File: its content is the chunks' content in order, its
    type is the recorder's [mimeType] (audio/webm when the recorder reports
    none), its name is "recording." followed by what follows the slash of
    that type, parameters included (the subtype alone when the type has no
    parameters), and it is installed as [audioFile], next to the playback
    URL.  [handleAnalyze] then treats it as it treats any state holding that
    File: same calls, same result, same error. *)
Theorem recording_becomes_the_audio_file
    (P : Platform) (stream : nat) (w : World) :
  let mimeType := recorderMimeType w in
  let file := recordedFile (audioChunksRef w) mimeType in
  let w' := onstop P stream w in
  audioFile w' = Some file
  /\ audioURL w' = Some (objectURL P (objectURLs w))
  /\ file_type file = mimeType
  /\ file_data file = blob_data (newBlob (audioChunksRef w) mimeType)
  /\ file_data file = String.concat "" (map blob_data (audioChunksRef w))
  /\ file_name file = "recording." +:+ Js.templateIndex (Js.split "/" mimeType) 1
  /\ (forall r, mediaRecorderRef w = Some r -> rec_mimeType r <> "" ->
                mimeType = rec_mimeType r)
  /\ (forall r, mediaRecorderRef w = Some r -> rec_mimeType r = "" ->
                mimeType = "audio/webm" /\ file_name file = "recording.webm")
  /\ (forall ty sub, mimeType = ty +:+ "/" +:+ sub ->
                     Js.includes ty "/" = false -> Js.includes sub "/" = false ->
                     file_name file = "recording." +:+ sub)
  /\ (forall data w0 rest,
        tasks w0 = RecorderStopped stream :: rest ->
        runTask P data w0
        = onstop P stream (ondataavailable data (set_tasks rest w0)))
  /\ (forall w2,
        audioFile w2 = Some file -> apiKey w2 = apiKey w ->
        isAudioFeedbackEnabled w2 = isAudioFeedbackEnabled w ->
        analysisResult w2 = analysisResult w -> isLoading w2 = isLoading w ->
        exists new,
          log (handleAnalyze P w') = log w' ++ new
          /\ log (handleAnalyze P w2) = log w2 ++ new
          /\ analysisResult (handleAnalyze P w') = analysisResult (handleAnalyze P w2)
          /\ error (handleAnalyze P w') = error (handleAnalyze P w2)
          /\ isLoading (handleAnalyze P w') = isLoading (handleAnalyze P w2)).
Proof.
  intros mimeType file w'.
  do 3 (split; [reflexivity |]).
  split; [apply recordedFile_data |].
  split; [subst file; rewrite recordedFile_data; apply newBlob_data |].
  split; [reflexivity |].
  split; [| split; [| split; [| split]]].
  - intros r Href Hmime. subst mimeType. unfold recorderMimeType. rewrite Href.
    destruct (rec_mimeType r); done.
  - intros r Href Hmime. subst file mimeType. unfold recorderMimeType.
    by rewrite Href, Hmime.
  - intros ty sub Hmime Hty Hsub. subst file. rewrite Hmime. cbn.
    by rewrite (split_type_subtype ty sub Hty Hsub).
  - intros data w0 rest Htasks. unfold runTask. by rewrite Htasks.
  - intros w2 Hfile Hkey Hfb Hres Hload.
    apply handleAnalyze_same_source; by rewrite ?Hfile, ?Hkey, ?Hfb, ?Hres, ?Hload.
Qed.

(** * Further properties of the handlers *)

(** ** Analysing a selected file *)

Lemma countIf_app {A : Type} (f : A -> bool) (l1 l2 : list A) :
  countIf f (l1 ++ l2) = (countIf f l1 + countIf f l2)%nat.
Proof. induction l1 as [| x l1 IH]; cbn; [done |]. rewrite IH. lia. Qed.

Lemma added_spec (P : Platform) (w : World) (e : Event) (new : list Effect) :
  log (step P w e) = log w ++ new -> added P w e = new.
Proof. intros Hlog. unfold added. rewrite Hlog. apply drop_app_length. Qed.

Lemma analyzeVoiceTone_calls (P : Platform) (base64 mimeType key : string) :
  (countIf isEndpointCall (analyzeVoiceTone P base64 mimeType key).1 <= 1)%nat
  /\ countIf isCue (analyzeVoiceTone P base64 mimeType key).1 = 0%nat.
Proof.
  unfold analyzeVoiceTone. destruct (negb (Js.truthy key)); [cbn; lia |].
  destruct (generateContent P key (request base64 mimeType)) as [[text |] | e];
    cbn; lia.
Qed.

(** X1.  With a file selected but no key available, [handleAnalyze] reports
    the missing key and stops: no file is read, the endpoint is not called,
    the result and [isLoading] stay as they were. *)
Theorem handleAnalyze_without_key (P : Platform) (w : World) (file : File) :
  audioFile w = Some file ->
  Js.truthy (finalApiKey P w) = false ->
  let w' := handleAnalyze P w in
  w' = w |> setError Msg.missingKey
         |> playIfEnabled (isAudioFeedbackEnabled w) failure
  /\ error w' = Msg.missingKey
  /\ analysisResult w' = analysisResult w
  /\ isLoading w' = isLoading w
  /\ countIf isEndpointCall (added P w Analyze) = 0%nat.
Proof.
  intros Hfile Hkey w'. subst w'.
  assert (Hrun : handleAnalyze P w
                 = w |> setError Msg.missingKey
                     |> playIfEnabled (isAudioFeedbackEnabled w) failure).
  { unfold handleAnalyze. by rewrite Hfile, Hkey. }
  split; [exact Hrun |]. unfold added. cbn [step]. rewrite Hrun.
  unfold playIfEnabled, emit.
  destruct (isAudioFeedbackEnabled w); cbn.
  - rewrite drop_app_length. done.
  - rewrite drop_all. done.
Qed.

Lemma handleAnalyze_without_key_witness :
  let w := handleFileSelect (Some Demo.clip) Demo.fresh in
  Js.truthy (finalApiKey Demo.answering w) = false
  /\ error (handleAnalyze Demo.answering w) = Msg.missingKey
  /\ log (handleAnalyze Demo.answering w) = [PlayAudioFeedback failure].
Proof.
  intros w. split; [reflexivity |].
  destruct (handleAnalyze_without_key Demo.answering w Demo.clip
              eq_refl eq_refl) as (Hw & He & _).
  split; [exact He |]. rewrite Hw. reflexivity.
Defined.

(** X2.  The successful analysis: for a selected audio file and an available
    key, when the endpoint answers with a text, the result is that text
    trimmed, the error is empty, [isLoading] is false again, the endpoint
    was called exactly once, with the key and the file's base64 content and
    media type, and the success cue plays exactly when audio feedback is
    enabled. *)
Theorem handleAnalyze_success
    (P : Platform) (w : World) (file : File) (base64 mimeType text : string) :
  audioFile w = Some file ->
  Js.truthy (finalApiKey P w) = true ->
  fileToBase64 P file = Js.Normal (base64, mimeType) ->
  Js.startsWith mimeType "audio/" = true ->
  generateContent P (finalApiKey P w) (request base64 mimeType)
  = Js.Normal (Some text) ->
  let w' := handleAnalyze P w in
  analysisResult w' = Js.trim text
  /\ error w' = ""
  /\ isLoading w' = false
  /\ audioFile w' = Some file
  /\ log w' = log w
              ++ [GenerateContent (finalApiKey P w) (request base64 mimeType)]
              ++ (if isAudioFeedbackEnabled w
                  then [PlayAudioFeedback success] else []).
Proof.
  intros Hfile Hkey Hread Hmime Hreply w'. subst w'.
  unfold handleAnalyze. rewrite Hfile, Hkey, Hread, Hmime. cbn.
  unfold analyzeVoiceTone. rewrite Hkey, Hreply. cbn.
  unfold emitAll, playIfEnabled, emit.
  destruct (isAudioFeedbackEnabled w); cbn; rewrite <- ?app_assoc; done.
Qed.

Lemma handleAnalyze_success_witness :
  let w := run Demo.answering
             [ApiKeyChange "AIzaDemoKey"; ApiKeySave; SelectFile (Some Demo.clip)]
             Demo.fresh in
  analysisResult (handleAnalyze Demo.answering w) = "A calm, warm voice."
  /\ log (handleAnalyze Demo.answering w)
     = [GenerateContent "AIzaDemoKey" (request "SUQz" "audio/mpeg");
        PlayAudioFeedback success].
Proof.
  intros w.
  destruct (handleAnalyze_success Demo.answering w Demo.clip "SUQz" "audio/mpeg"
              " A calm, warm voice. " eq_refl eq_refl eq_refl eq_refl eq_refl)
    as (Hres & _ & _ & _ & Hlog).
  split; [exact Hres | exact Hlog].
Defined.

(** X3.  Whatever the file reader and the endpoint do, an analysis that got
    past the two guards ends with [isLoading] false and with the result or
    the error empty; it called the endpoint at most once, and it played
    exactly one cue when audio feedback is enabled and none otherwise. *)
Theorem handleAnalyze_outcome (P : Platform) (w : World) (file : File) :
  audioFile w = Some file ->
  Js.truthy (finalApiKey P w) = true ->
  let w' := handleAnalyze P w in
  isLoading w' = false
  /\ (analysisResult w' = "" \/ error w' = "")
  /\ log w' = log w ++ added P w Analyze
  /\ (countIf isEndpointCall (added P w Analyze) <= 1)%nat
  /\ countIf isCue (added P w Analyze)
     = (if isAudioFeedbackEnabled w then 1 else 0)%nat.
Proof.
  intros Hfile Hkey w'. subst w'.
  pose (tried :=
          match fileToBase64 P file with
          | Js.Normal (base64, mimeType) =>
              if negb (Js.startsWith mimeType "audio/")
              then ([], Js.Throw (Js.ThrownError Msg.invalidFileType))
              else analyzeVoiceTone P base64 mimeType (finalApiKey P w)
          | Js.Throw err => ([], Js.Throw err)
          end).
  assert (Hcalls : (countIf isEndpointCall tried.1 <= 1)%nat
                   /\ countIf isCue tried.1 = 0%nat).
  { subst tried. destruct (fileToBase64 P file) as [[base64 mimeType] | err];
      [| cbn; lia].
    destruct (negb _); [cbn; lia |]. apply analyzeVoiceTone_calls. }
  assert (Hlog : exists new,
             log (handleAnalyze P w) = log w ++ new
             /\ (countIf isEndpointCall new <= 1)%nat
             /\ countIf isCue new = (if isAudioFeedbackEnabled w then 1 else 0)%nat
             /\ isLoading (handleAnalyze P w) = false
             /\ (analysisResult (handleAnalyze P w) = ""
                 \/ error (handleAnalyze P w) = "")).
  { unfold handleAnalyze. rewrite Hfile, Hkey. cbn. fold tried.
    destruct tried as [calls [result | err]]; cbn in Hcalls;
      destruct Hcalls as [Hcall Hcue];
      unfold emitAll, playIfEnabled, emit;
      destruct (isAudioFeedbackEnabled w); cbn;
      eexists; (split; [rewrite <- ?app_assoc; reflexivity |]);
      rewrite ?countIf_app, ?app_nil_r; cbn; repeat split; auto; lia. }
  destruct Hlog as (new & Hlog & Hcall & Hcue & Hload & Hexcl).
  rewrite (added_spec P w Analyze new Hlog). done.
Qed.

Lemma handleAnalyze_outcome_witness :
  let w := run Demo.answering
             [ApiKeyChange "AIzaDemoKey"; ApiKeySave; SelectFile (Some Demo.notes)]
             Demo.fresh in
  isLoading (handleAnalyze Demo.answering w) = false
  /\ countIf isEndpointCall (added Demo.answering w Analyze) = 0%nat.
Proof.
  intros w.
  destruct (handleAnalyze_outcome Demo.answering w Demo.notes eq_refl eq_refl)
    as (Hload & _).
  split; [exact Hload | reflexivity].
Defined.

(** ** What the handlers append to the log *)

Ltac unfold_handlers :=
  unfold handleExampleClick, handleFileChange, handleTabChange,
    handleFileSelect, handleStartRecording, handleClearRecording,
    handleStopRecording, recorderStop, runTask, onstop, ondataavailable,
    handleApiKeySave, validateApiKey, handleApiKeyChange, handleApiKeyEdit,
    toggleAudioFeedback, playIfEnabled, emitAll, emit in *.

Ltac log_ext :=
  first
    [ exists []; split; [by rewrite app_nil_r |]
    | eexists; split; [reflexivity |]
    | eexists; split; [symmetry; apply app_assoc |]
    | eexists; split; [rewrite <- !app_assoc; reflexivity |] ].

Lemma handleAnalyze_log (P : Platform) (w : World) :
  exists new,
    log (handleAnalyze P w) = log w ++ new
    /\ (countIf isEndpointCall new <= 1)%nat
    /\ countIf isCue new = (if isAudioFeedbackEnabled w then 1 else 0)%nat.
Proof.
  unfold handleAnalyze.
  destruct (audioFile w) as [file |].
  - destruct (negb (Js.truthy (finalApiKey P w))).
    + unfold_handlers. destruct (isAudioFeedbackEnabled w); cbn;
        log_ext; cbn; lia.
    + assert (Hcalls :
        forall tried : list Effect * Js.Completion string,
          (countIf isEndpointCall tried.1 <= 1)%nat ->
          countIf isCue tried.1 = 0%nat ->
          exists new,
            log (let '(calls, outcome) := tried in
                 (match outcome with
                  | Js.Normal result =>
                      emitAll calls (w |> setIsLoading true
                                       |> setAnalysisResult "" |> setError "")
                      |> setAnalysisResult result
                      |> playIfEnabled (isAudioFeedbackEnabled w) success
                  | Js.Throw err =>
                      emitAll calls (w |> setIsLoading true
                                       |> setAnalysisResult "" |> setError "")
                      |> setError match err with
                                  | Js.ThrownError message => message
                                  | Js.ThrownValue => Msg.unexpected
                                  end
                      |> playIfEnabled (isAudioFeedbackEnabled w) failure
                  end) |> setIsLoading false)
            = log w ++ new
            /\ (countIf isEndpointCall new <= 1)%nat
            /\ countIf isCue new
               = (if isAudioFeedbackEnabled w then 1 else 0)%nat).
      { intros [calls [result | err]] Hcall Hcue; cbn in Hcall, Hcue;
          unfold_handlers; destruct (isAudioFeedbackEnabled w); cbn;
          log_ext; rewrite ?countIf_app; cbn; lia. }
      apply Hcalls.
      * destruct (fileToBase64 P file) as [[base64 mimeType] | err];
          [| cbn; lia].
        destruct (negb _); [cbn; lia |]. apply analyzeVoiceTone_calls.
      * destruct (fileToBase64 P file) as [[base64 mimeType] | err];
          [| done].
        destruct (negb _); [done |]. apply analyzeVoiceTone_calls.
  - unfold_handlers. destruct (isAudioFeedbackEnabled w); cbn;
      log_ext; cbn; lia.
Qed.

Lemma step_log (P : Platform) (w : World) (e : Event) :
  exists new,
    log (step P w e) = log w ++ new
    /\ (e <> Analyze -> countIf isEndpointCall new = 0%nat)
    /\ (countIf isEndpointCall new <= 1)%nat
    /\ (countIf isCue new <= 1)%nat
    /\ (isAudioFeedbackEnabled w = false -> countIf isCue new = 0%nat).
Proof.
  destruct e as [file | mic | | | data | files | tab | value | | | |
                 resultText |]; cbn [step].
  11: { destruct (handleAnalyze_log P w) as (new & Hlog & Hcall & Hcue).
        exists new. rewrite Hcue. repeat split; try done.
        - destruct (isAudioFeedbackEnabled w); lia.
        - by intros ->. }
  all: unfold_handlers.
  all: repeat case_match; simplify_eq; cbn.
  all: log_ext; cbn; repeat split; try (done || lia).
Qed.

Lemma handleAnalyze_frame (P : Platform) (w : World) :
  let w' := handleAnalyze P w in
  apiKey w' = apiKey w /\ isKeySaved w' = isKeySaved w
  /\ localStorage w' = localStorage w
  /\ isAudioFeedbackEnabled w' = isAudioFeedbackEnabled w
  /\ isRecording w' = isRecording w
  /\ mediaRecorderRef w' = mediaRecorderRef w
  /\ tasks w' = tasks w
  /\ (isLoading w = false -> isLoading w' = false).
Proof.
  unfold handleAnalyze, playIfEnabled, emitAll.
  destruct (audioFile w) as [file |] eqn:Hfile;
    [| by destruct (isAudioFeedbackEnabled w) eqn:Hfb].
  destruct (negb _); [by destruct (isAudioFeedbackEnabled w) eqn:Hfb |].
  destruct (match fileToBase64 P file with
            | Js.Normal (base64, mimeType) => _
            | Js.Throw err => _
            end) as [calls [result | err]];
    destruct (isAudioFeedbackEnabled w) eqn:Hfb; done.
Qed.


(** X5.  Only [handleAnalyze] reaches the endpoint, and at most once per
    click: over any sequence of events the number of endpoint calls in the
    log grows by no more than the number of Analyze events, and every single
    event plays at most one cue. *)
Theorem endpoint_calls_are_bounded_by_analyze_clicks
    (P : Platform) (events : list Event) (w : World) :
  (countIf isEndpointCall (log (run P events w))
   <= countIf isEndpointCall (log w) + countIf isAnalyze events)%nat
  /\ (forall e, log (step P w e) = log w ++ added P w e
                /\ (countIf isCue (added P w e) <= 1)%nat
                /\ (e <> Analyze -> countIf isEndpointCall (added P w e) = 0%nat)).
Proof.
  split.
  - revert w. induction events as [| e events IH]; intros w; [cbn; lia |].
    cbn [run foldl countIf]. specialize (IH (step P w e)). unfold run in IH.
    destruct (step_log P w e) as (new & Hlog & Hother & Hone & _).
    rewrite Hlog, countIf_app in IH.
    destruct e; cbn [isAnalyze];
      try (rewrite Hother in IH by done); lia.
  - intros e. destruct (step_log P w e) as (new & Hlog & Hother & _ & Hcue & _).
    by rewrite (added_spec P w e new Hlog).
Qed.

(** ** Sessions through the rendered controls *)

Lemma trim_truthy (s : string) :
  Js.truthy (Js.trim s) = true -> Js.truthy s = true.
Proof. by destruct s. Qed.

Lemma handleAnalyze_settles (P : Platform) (w : World) (file : File) :
  audioFile w = Some file ->
  Js.truthy (finalApiKey P w) = true ->
  isLoading (handleAnalyze P w) = false
  /\ (analysisResult (handleAnalyze P w) = "" \/ error (handleAnalyze P w) = "").
Proof.
  intros Hfile Hkey. unfold handleAnalyze, playIfEnabled, emitAll.
  rewrite Hfile, Hkey. cbn.
  destruct (match fileToBase64 P file with
            | Js.Normal (base64, mimeType) => _
            | Js.Throw err => _
            end) as [calls [result | err]];
    destruct (isAudioFeedbackEnabled w) eqn:Hfb; cbn; auto.
Qed.

Lemma canAnalyze_ready (P : Platform) (w : World) :
  (isKeySaved w = true -> Js.truthy (apiKey w) = true) ->
  canAnalyze P w = true ->
  exists file, audioFile w = Some file /\ Js.truthy (finalApiKey P w) = true.
Proof.
  intros Hsaved Hcan. unfold canAnalyze in Hcan.
  apply andb_prop in Hcan as [Hcan Hkey]. apply andb_prop in Hcan as [Hfile _].
  apply bool_decide_eq_true in Hfile as [file Hfile].
  exists file. split; [done |]. unfold finalApiKey, isEnvKeySet in *.
  destruct (envApiKey P) as [k |]; cbn in *.
  - destruct (Js.truthy k) eqn:Hk; cbn in *; [done | auto].
  - auto.
Qed.

Lemma step_not_loading (P : Platform) (w : World) (e : Event) :
  isLoading w = false -> isLoading (step P w e) = false.
Proof.
  intros Hidle.
  destruct e as [file | mic | | | data | files | tab | value | | | |
                 resultText |]; cbn [step].
  all: try (by apply handleAnalyze_frame).
  all: unfold_handlers; repeat case_match; simplify_eq; done.
Qed.

Lemma step_saved_key (P : Platform) (w : World) (e : Event) :
  enabled P w e = true ->
  (isKeySaved w = true ->
   localStorage w !! GEMINI_API_KEY = Some (apiKey w)
   /\ Js.truthy (apiKey w) = true) ->
  isKeySaved (step P w e) = true ->
  localStorage (step P w e) !! GEMINI_API_KEY = Some (apiKey (step P w e))
  /\ Js.truthy (apiKey (step P w e)) = true.
Proof.
  intros Hen Hinv.
  destruct e as [file | mic | | | data | files | tab | value | | | |
                 resultText |]; cbn [step enabled] in *.
  11: { destruct (handleAnalyze_frame P w) as (-> & -> & -> & _). exact Hinv. }
  8: { apply andb_prop in Hen as [_ Hsaved].
       unfold handleApiKeyChange. intros Hnow. exfalso.
       destruct (Js.truthy (apiKeyError w)); cbn in Hnow;
         rewrite Hnow in Hsaved; discriminate. }
  8: { unfold handleApiKeySave, validateApiKey.
       destruct (negb (Js.truthy (Js.trim (apiKey w)))) eqn:Htrim; [exact Hinv |].
       destruct (negb (Js.startsWith (Js.trim (apiKey w)) "AIza")); [exact Hinv |].
       cbn. intros _. rewrite lookup_insert_eq. split; [done |].
       apply trim_truthy. by apply negb_false_iff. }
  10: { unfold toggleAudioFeedback. cbn. by rewrite lookup_insert_ne. }
  all: unfold_handlers; repeat case_match; simplify_eq; cbn; try done.
Qed.

Lemma step_recording (P : Platform) (w : World) (e : Event) :
  enabled P w e = true ->
  isRecording w = recorderRecording w ->
  isRecording (step P w e) = recorderRecording (step P w e).
Proof.
  intros Hen Hinv. unfold recorderRecording in *.
  destruct e as [file | mic | | | data | files | tab | value | | | |
                 resultText |]; cbn [step enabled] in *.
  11: { by destruct (handleAnalyze_frame P w) as (_ & _ & _ & _ & -> & -> & _). }
  all: unfold_handlers; unfold isRecordingState in *.
  all: repeat case_match; simplify_eq; cbn in *; try done.
  all: repeat match goal with
         | H : _ && _ = true |- _ => apply andb_prop in H as [? ?]
         end; simplify_eq; cbn in *; try done.
  all: try congruence.
  all: by destruct (isRecording w).
Qed.

Lemma step_result_or_error (P : Platform) (w : World) (e : Event) :
  enabled P w e = true ->
  (isKeySaved w = true -> Js.truthy (apiKey w) = true) ->
  analysisResult w = "" \/ error w = "" ->
  analysisResult (step P w e) = "" \/ error (step P w e) = "".
Proof.
  intros Hen Hsaved Hinv.
  destruct e as [file | mic | | | data | files | tab | value | | | |
                 resultText |]; cbn [step enabled] in *.
  11: { destruct (canAnalyze_ready P w Hsaved Hen) as (file & Hfile & Hkey).
        apply (handleAnalyze_settles P w file Hfile Hkey). }
  all: unfold_handlers.
  all: repeat case_match; simplify_eq; cbn; auto.
Qed.

Lemma mounted_sessionInvariant (P : Platform) (feedback : bool)
    (storage : gmap string string) :
  sessionInvariant (mounted P feedback storage).
Proof.
  split; [| | | | apply mounted_urlHasFile]; unfold mounted, loadSavedKey.
  all: destruct (isEnvKeySet P); [cbn; by auto |].
  all: cbn [initialWorld localStorage].
  all: destruct (storage !! GEMINI_API_KEY) as [savedKey |] eqn:Hkey;
    [| cbn; by auto].
  all: destruct (Js.truthy savedKey) eqn:Htruthy; cbn; by auto.
Qed.

Lemma step_sessionInvariant (P : Platform) (w : World) (e : Event) :
  enabled P w e = true -> sessionInvariant w -> sessionInvariant (step P w e).
Proof.
  intros Hen [Hre Hload Hkey Hrec Hurl]. split.
  - apply step_result_or_error; [done | | done]. intros Hs. by apply Hkey.
  - by apply step_not_loading.
  - by apply step_saved_key.
  - by apply step_recording.
  - by apply step_urlHasFile.
Qed.

Lemma uiRun_sessionInvariant (P : Platform) (events : list Event) (w w' : World) :
  sessionInvariant w -> uiRun P events w = Some w' -> sessionInvariant w'.
Proof.
  revert w. induction events as [| e events IH]; intros w Hinv Hrun; cbn in Hrun.
  - by simplify_eq.
  - destruct (enabled P w e) eqn:Hen; [| done].
    apply (IH (step P w e)); [| done]. by apply step_sessionInvariant.
Qed.

(** X6.  In a session through the rendered controls, each handler running
    to its end before the next event, the result panel and the error banner
    never show together: after every event the result or the error is
    empty. *)
Theorem result_and_error_never_both
    (P : Platform) (events : list Event) (feedback : bool)
    (storage : gmap string string) (w : World) :
  uiRun P events (mounted P feedback storage) = Some w ->
  analysisResult w = "" \/ error w = "".
Proof.
  intros Hrun.
  by destruct (uiRun_sessionInvariant P events _ w
                 (mounted_sessionInvariant P feedback storage) Hrun).
Qed.

Lemma result_and_error_never_both_witness :
  let w := run Demo.answering Demo.analysisSession Demo.fresh in
  analysisResult w = Demo.exampleText
  /\ (analysisResult w = "" \/ error w = "").
Proof.
  split; [reflexivity |].
  apply (result_and_error_never_both Demo.answering Demo.analysisSession true ∅).
  vm_compute. reflexivity.
Defined.

(** X7.  In a session through the rendered controls, whenever the key is
    marked as saved the storage entry holds exactly the key of the input
    state, and that key is not empty. *)
Theorem saved_key_matches_storage
    (P : Platform) (events : list Event) (feedback : bool)
    (storage : gmap string string) (w : World) :
  uiRun P events (mounted P feedback storage) = Some w ->
  isKeySaved w = true ->
  localStorage w !! GEMINI_API_KEY = Some (apiKey w) /\ apiKey w <> "".
Proof.
  intros Hrun Hsaved.
  destruct (uiRun_sessionInvariant P events _ w
              (mounted_sessionInvariant P feedback storage) Hrun)
    as [_ _ Hkey _ _].
  destruct (Hkey Hsaved) as [Hstored Htruthy]. split; [done |].
  intros Hempty. rewrite Hempty in Htruthy. discriminate.
Qed.

Lemma saved_key_matches_storage_witness :
  let w := run Demo.answering Demo.keySession Demo.fresh in
  isKeySaved w = true
  /\ localStorage w !! GEMINI_API_KEY = Some (apiKey w) /\ apiKey w <> "".
Proof.
  split; [reflexivity |].
  apply (saved_key_matches_storage Demo.answering Demo.keySession true ∅).
  - vm_compute. reflexivity.
  - reflexivity.
Defined.

(** X8.  In a session through the rendered controls, each handler running
    to its end before the next event, the recording indicator tells the
    truth: [isRecording] is true exactly when the recorder the ref points to
    is in state 'recording'. *)
Theorem recording_flag_matches_recorder
    (P : Platform) (events : list Event) (feedback : bool)
    (storage : gmap string string) (w : World) :
  uiRun P events (mounted P feedback storage) = Some w ->
  isRecording w = true
  <-> exists r, mediaRecorderRef w = Some r /\ rec_state r = recording.
Proof.
  intros Hrun.
  destruct (uiRun_sessionInvariant P events _ w
              (mounted_sessionInvariant P feedback storage) Hrun)
    as [_ _ _ Hrec _].
  rewrite Hrec. unfold recorderRecording, isRecordingState.
  destruct (mediaRecorderRef w) as [r |]; split.
  - intros Hstate. exists r. split; [done |]. by destruct (rec_state r).
  - intros (r' & Href & Hstate). simplify_eq. by rewrite Hstate.
  - done.
  - by intros (r' & Href & _).
Qed.

Lemma recording_flag_matches_recorder_witness :
  let w := run Demo.answering Demo.recordingSession Demo.fresh in
  isRecording w = true
  <-> exists r, mediaRecorderRef w = Some r /\ rec_state r = recording.
Proof.
  apply (recording_flag_matches_recorder Demo.answering Demo.recordingSession
           true ∅).
  vm_compute. reflexivity.
Defined.

Lemma analyzeVoiceTone_one_call (P : Platform) (base64 mimeType key : string) :
  Js.truthy key = true ->
  countIf isEndpointCall (analyzeVoiceTone P base64 mimeType key).1 = 1%nat
  /\ countIf isCue (analyzeVoiceTone P base64 mimeType key).1 = 0%nat.
Proof.
  intros Hkey. unfold analyzeVoiceTone. rewrite Hkey. cbn.
  by destruct (generateContent P key (request base64 mimeType)) as [[text |] | e].
Qed.

Lemma handleAnalyze_reaches_endpoint
    (P : Platform) (w : World) (file : File) (base64 mimeType : string) :
  audioFile w = Some file ->
  Js.truthy (finalApiKey P w) = true ->
  fileToBase64 P file = Js.Normal (base64, mimeType) ->
  Js.startsWith mimeType "audio/" = true ->
  countIf isEndpointCall (added P w Analyze) = 1%nat.
Proof.
  intros Hfile Hkey Hread Hmime.
  destruct (analyzeVoiceTone_one_call P base64 mimeType _ Hkey) as [Hone Hcue].
  assert (Hlog : exists new, log (handleAnalyze P w) = log w ++ new
                             /\ countIf isEndpointCall new = 1%nat).
  { unfold handleAnalyze. rewrite Hfile, Hkey, Hread, Hmime. cbn.
    destruct (analyzeVoiceTone P base64 mimeType (finalApiKey P w))
      as [calls [result | err]]; cbn in Hone;
      unfold_handlers; destruct (isAudioFeedbackEnabled w); cbn;
      log_ext; rewrite ?countIf_app; cbn; lia. }
  destruct Hlog as (new & Hlog & Hcount).
  by rewrite (added_spec P w Analyze new Hlog).
Qed.

(** X9.  In a session through the rendered controls, whenever the Analyze
    button is enabled a file is selected and a non-empty key is available,
    so [handleAnalyze] passes both guards; if the file reads as audio, the
    click calls the endpoint exactly once. *)
Theorem analyze_button_enabled_means_ready
    (P : Platform) (events : list Event) (feedback : bool)
    (storage : gmap string string) (w : World) :
  uiRun P events (mounted P feedback storage) = Some w ->
  canAnalyze P w = true ->
  exists file,
    audioFile w = Some file
    /\ Js.truthy (finalApiKey P w) = true
    /\ isLoading (handleAnalyze P w) = false
    /\ (forall base64 mimeType,
          fileToBase64 P file = Js.Normal (base64, mimeType) ->
          Js.startsWith mimeType "audio/" = true ->
          countIf isEndpointCall (added P w Analyze) = 1%nat).
Proof.
  intros Hrun Hcan.
  destruct (uiRun_sessionInvariant P events _ w
              (mounted_sessionInvariant P feedback storage) Hrun)
    as [_ _ Hkey _ _].
  destruct (canAnalyze_ready P w) as (file & Hfile & Htruthy);
    [intros Hs; by apply Hkey | done |].
  exists file. split; [done |]. split; [done |]. split.
  - by apply (handleAnalyze_settles P w file).
  - intros base64 mimeType Hread Hmime.
    by apply (handleAnalyze_reaches_endpoint P w file base64 mimeType).
Qed.

Lemma analyze_button_enabled_means_ready_witness :
  let w := run Demo.answering
             [ApiKeyChange "AIzaDemoKey"; ApiKeySave;
              FileChange (Some [Demo.clip])] Demo.fresh in
  canAnalyze Demo.answering w = true
  /\ exists file, audioFile w = Some file
                  /\ Js.truthy (finalApiKey Demo.answering w) = true.
Proof.
  intros w. split; [reflexivity |].
  destruct (analyze_button_enabled_means_ready Demo.answering
              [ApiKeyChange "AIzaDemoKey"; ApiKeySave;
               FileChange (Some [Demo.clip])] true ∅ w)
    as (file & Hfile & Hkey & _).
  - vm_compute. reflexivity.
  - reflexivity.
  - by exists file.
Defined.

(** X10.  After any sequence of events, a click on the record tab leaves no
    audio source selected: [audioFile] and [audioURL] are both null when
    [handleTabChange] returns, and the record tab is showing. *)
Theorem record_tab_starts_empty
    (P : Platform) (events : list Event) (feedback : bool)
    (storage : gmap string string) :
  let w := handleTabChange record (run P events (mounted P feedback storage)) in
  audioFile w = None /\ audioURL w = None /\ activeTab w = record.
Proof.
  set (w0 := run P events (mounted P feedback storage)).
  assert (Hinv : urlHasFile w0)
    by apply run_urlHasFile, mounted_urlHasFile.
  destruct (handleTabChange_record w0) as (Hfile & Htab & Hurl).
  cbn zeta. split; [done |]. split; [| done].
  destruct (audioFile w0) as [f |] eqn:Hf.
  - apply Hurl. by exists f.
  - unfold handleTabChange. rewrite Hf. cbn.
    destruct (audioURL w0) as [u |] eqn:Hu; [| done].
    exfalso. destruct Hinv as [f Hsome]; [by exists u |].
    rewrite Hf in Hsome. discriminate.
Qed.

(** X11.  A click on an example shows that example's text as the result
    without calling the endpoint: the error is emptied, no audio source
    stays selected, and the success cue plays exactly when audio feedback
    is enabled. *)
Theorem example_click_shows_text (P : Platform) (resultText : string) (w : World) :
  let w' := handleExampleClick resultText w in
  analysisResult w' = resultText
  /\ error w' = ""
  /\ audioFile w' = None /\ audioURL w' = None
  /\ countIf isEndpointCall (added P w (ExampleClick resultText)) = 0%nat
  /\ countIf isCue (added P w (ExampleClick resultText))
     = (if isAudioFeedbackEnabled w then 1 else 0)%nat
  /\ (isAudioFeedbackEnabled w = true ->
      last (log w') = Some (PlayAudioFeedback success)).
Proof.
  assert (Hlog : exists new,
             log (handleExampleClick resultText w) = log w ++ new
             /\ countIf isEndpointCall new = 0%nat
             /\ countIf isCue new = (if isAudioFeedbackEnabled w then 1 else 0)%nat).
  { unfold_handlers. repeat case_match; simplify_eq; cbn;
      log_ext; rewrite ?countIf_app; cbn; lia. }
  destruct Hlog as (new & Hlog & Hcall & Hcue).
  cbn zeta. rewrite (added_spec P w (ExampleClick resultText) new Hlog).
  split; [| split; [| split; [| split; [| split; [done | split; [done |]]]]]].
  1-4: unfold_handlers; repeat case_match; simplify_eq; done.
  intros Hon. unfold handleExampleClick, playIfEnabled, emit. rewrite Hon. cbn.
  apply last_snoc.
Qed.

(** X12.  The saved key survives a reload: when no environment key is set
    and [handleApiKeySave] accepts the key, mounting the application on the
    resulting storage restores that key, as typed, and marks it as saved. *)
Theorem saved_key_is_restored_on_mount
    (P : Platform) (w : World) (feedback : bool) :
  isEnvKeySet P = false ->
  Js.startsWith (Js.trim (apiKey w)) "AIza" = true ->
  let reloaded := mounted P feedback (localStorage (handleApiKeySave w)) in
  apiKey reloaded = apiKey w
  /\ isKeySaved reloaded = true
  /\ finalApiKey P reloaded = apiKey w.
Proof.
  intros Henv Hvalid.
  assert (Htrim : Js.truthy (Js.trim (apiKey w)) = true)
    by exact (startsWith_truthy _ "AIza" eq_refl Hvalid).
  assert (Hstored : localStorage (handleApiKeySave w) !! GEMINI_API_KEY
                    = Some (apiKey w)).
  { unfold handleApiKeySave, validateApiKey. rewrite Htrim, Hvalid. cbn.
    apply lookup_insert_eq. }
  cbn zeta. unfold mounted, loadSavedKey, finalApiKey. rewrite Henv.
  cbn [initialWorld localStorage]. rewrite Hstored.
  by rewrite (trim_truthy _ Htrim).
Qed.

Lemma saved_key_is_restored_on_mount_witness :
  let w := handleApiKeyChange " AIzaDemoKey " Demo.fresh in
  apiKey (mounted Demo.answering false (localStorage (handleApiKeySave w)))
  = " AIzaDemoKey ".
Proof.
  intros w.
  destruct (saved_key_is_restored_on_mount Demo.answering w false
              eq_refl eq_refl) as (Hkey & _).
  exact Hkey.
Defined.

(** X13.  An environment key overrides the saved-key flow: the mount effect
    does not read the storage, every analysis uses the environment key
    whatever the input state holds, the three controls of the key panel are
    not rendered, and the Analyze button needs no saved key. *)
Theorem environment_key_overrides_saved_key
    (P : Platform) (w : World) (feedback : bool) (storage : gmap string string)
    (key : string) :
  envApiKey P = Some key -> key <> "" ->
  mounted P feedback storage = initialWorld feedback storage
  /\ finalApiKey P w = key
  /\ (forall value, enabled P w (ApiKeyChange value) = false)
  /\ enabled P w ApiKeySave = false
  /\ enabled P w ApiKeyEdit = false
  /\ (is_Some (audioFile w) -> isLoading w = false -> canAnalyze P w = true).
Proof.
  intros Henv Hne.
  assert (Hset : isEnvKeySet P = true).
  { unfold isEnvKeySet. rewrite Henv. by destruct key. }
  unfold mounted, loadSavedKey, finalApiKey, canAnalyze. cbn [enabled].
  rewrite Hset, Henv. repeat split; try done.
  intros Hfile Hload. rewrite Hload, bool_decide_eq_true_2 by done. done.
Qed.

Lemma environment_key_overrides_saved_key_witness :
  let P := {| envApiKey := Some "AIzaEnvKey";
              fileToBase64 := fileToBase64 Demo.answering;
              generateContent := generateContent Demo.answering;
              typeErrorMessage := typeErrorMessage Demo.answering;
              objectURL := objectURL Demo.answering |} in
  finalApiKey P (handleApiKeyChange "typed" Demo.fresh) = "AIzaEnvKey".
Proof.
  intros P.
  destruct (environment_key_overrides_saved_key P
              (handleApiKeyChange "typed" Demo.fresh) true ∅ "AIzaEnvKey"
              eq_refl) as (_ & Hkey & _); [discriminate | exact Hkey].
Defined.

(** X14.  The audio-feedback toggle: each click flips the preference and
    stores its JSON text, which the initialiser of the next mount reads back
    as the same value; two clicks restore the preference; the stored API key
    is not touched. *)
Theorem toggle_round_trip (w : World) :
  let w' := toggleAudioFeedback w in
  isAudioFeedbackEnabled w' = negb (isAudioFeedbackEnabled w)
  /\ initialFeedback (localStorage w') = Some (isAudioFeedbackEnabled w')
  /\ isAudioFeedbackEnabled (toggleAudioFeedback w') = isAudioFeedbackEnabled w
  /\ initialFeedback (localStorage (toggleAudioFeedback w'))
     = Some (isAudioFeedbackEnabled w)
  /\ localStorage w' !! GEMINI_API_KEY = localStorage w !! GEMINI_API_KEY
  /\ log w' = log w.
Proof.
  cbn zeta. unfold toggleAudioFeedback, initialFeedback. cbn.
  rewrite !lookup_insert_eq, lookup_insert_ne by done.
  by destruct (isAudioFeedbackEnabled w).
Qed.

(** ** Recording *)

Lemma handleAnalyze_log_streams (P : Platform) (w : World) :
  exists new,
    log (handleAnalyze P w) = log w ++ new
    /\ forall stream, countIf (isRecorderStop stream) new = 0%nat
                      /\ countIf (isTrackStop stream) new = 0%nat.
Proof.
  unfold handleAnalyze.
  destruct (audioFile w) as [file |].
  - destruct (negb (Js.truthy (finalApiKey P w))).
    + unfold_handlers. destruct (isAudioFeedbackEnabled w); cbn; by log_ext.
    + assert (Htried :
        forall stream,
          countIf (isRecorderStop stream)
            (match fileToBase64 P file with
             | Js.Normal (base64, mimeType) =>
                 if negb (Js.startsWith mimeType "audio/")
                 then ([], Js.Throw (Js.ThrownError Msg.invalidFileType))
                 else analyzeVoiceTone P base64 mimeType (finalApiKey P w)
             | Js.Throw err => ([], Js.Throw err)
             end).1 = 0%nat
          /\ countIf (isTrackStop stream)
               (match fileToBase64 P file with
                | Js.Normal (base64, mimeType) =>
                    if negb (Js.startsWith mimeType "audio/")
                    then ([], Js.Throw (Js.ThrownError Msg.invalidFileType))
                    else analyzeVoiceTone P base64 mimeType (finalApiKey P w)
                | Js.Throw err => ([], Js.Throw err)
                end).1 = 0%nat).
      { intros stream.
        destruct (fileToBase64 P file) as [[base64 mimeType] | err]; [| done].
        destruct (negb _); [done |]. unfold analyzeVoiceTone.
        destruct (negb _); [done |].
        by destruct (generateContent P _ _) as [[text |] | e]. }
      destruct (match fileToBase64 P file with
                | Js.Normal (base64, mimeType) => _
                | Js.Throw err => _
                end) as [calls [result | err]]; cbn in Htried;
        unfold_handlers; destruct (isAudioFeedbackEnabled w); cbn;
        log_ext; intros stream; destruct (Htried stream);
        rewrite ?countIf_app; cbn; split; lia.
  - unfold_handlers. destruct (isAudioFeedbackEnabled w); cbn; by log_ext.
Qed.

Lemma step_streamsAccounted (P : Platform) (w : World) (e : Event) :
  streamsAccounted w -> streamsAccounted (step P w e).
Proof.
  intros Hacc stream. specialize (Hacc stream).
  destruct e as [file | mic | | | data | files | tab | value | | | |
                 resultText |]; cbn [step].
  11: { destruct (handleAnalyze_log_streams P w) as (new & Hlog & Hnone).
        destruct (Hnone stream) as [Hstop Htrack].
        destruct (handleAnalyze_frame P w) as (_ & _ & _ & _ & _ & _ & -> & _).
        rewrite Hlog, !countIf_app. lia. }
  all: unfold_handlers.
  all: repeat case_match; simplify_eq; cbn in *.
  all: rewrite ?countIf_app; cbn in *.
  all: repeat case_match; try lia.
  rewrite H. cbn. lia.
Qed.

Lemma run_streamsAccounted (P : Platform) (events : list Event) (w : World) :
  streamsAccounted w -> streamsAccounted (run P events w).
Proof.
  revert w. induction events as [| e events IH]; intros w Hacc; [done |].
  cbn. apply IH. by apply step_streamsAccounted.
Qed.

(** X15.  The microphone is released once per stopped recorder: after any
    sequence of events, for every stream, the recorder stops equal the
    released streams plus the recorder tasks still queued; with an empty
    queue every stopped stream has been released. *)
Theorem stopped_streams_are_released
    (P : Platform) (events : list Event) (feedback : bool)
    (storage : gmap string string) :
  let w := run P events (mounted P feedback storage) in
  streamsAccounted w
  /\ (tasks w = [] ->
      forall stream, countIf (isTrackStop stream) (log w)
                     = countIf (isRecorderStop stream) (log w)).
Proof.
  assert (Hacc : streamsAccounted (run P events (mounted P feedback storage))).
  { apply run_streamsAccounted. intros stream. unfold mounted, loadSavedKey.
    repeat case_match; done. }
  cbn zeta. split; [exact Hacc |].
  intros Hempty stream. specialize (Hacc stream).
  rewrite Hempty in Hacc. cbn in Hacc. lia.
Qed.

(** X16.  [handleStartRecording] raises the recording flag exactly when the
    recorder was constructed and started: then the recorder is recording on
    a fresh chunk buffer and the error is empty; in every other case the
    flag is unchanged and the error is set. *)
Theorem recording_starts_only_with_a_started_recorder
    (mic : Microphone) (w : World) :
  isRecording w = false ->
  let w' := handleStartRecording mic w in
  (isRecording w' = true
   <-> exists stream mimeType,
         mic = GetUserMediaResolves stream (Constructed mimeType false))
  /\ (isRecording w' = true ->
      recorderRecording w' = true /\ audioChunksRef w' = [] /\ error w' = "")
  /\ (isRecording w' = false -> error w' <> "")
  /\ analysisResult w' = "" /\ audioFile w' = None /\ audioURL w' = None.
Proof.
  intros Hoff. cbn zeta. unfold handleStartRecording, playIfEnabled.
  destruct mic as [| | stream [| mimeType [|]]];
    destruct (isAudioFeedbackEnabled w); cbn; rewrite ?Hoff;
    repeat split; try done; eauto; try (by intros (? & ? & ?)).
Qed.

Lemma recording_starts_only_with_a_started_recorder_witness :
  isRecording (handleStartRecording Demo.micGranted Demo.fresh) = true
  /\ isRecording (handleStartRecording
                    (GetUserMediaResolves 1 ConstructorThrows) Demo.fresh) = false.
Proof.
  split.
  - destruct (recording_starts_only_with_a_started_recorder
                Demo.micGranted Demo.fresh eq_refl) as ([_ Hback] & _).
    apply Hback. by exists 1%nat, "audio/webm".
  - destruct (recording_starts_only_with_a_started_recorder
                (GetUserMediaResolves 1 ConstructorThrows) Demo.fresh eq_refl)
      as ([Hiff _] & _).
    destruct (isRecording _) eqn:Hrec; [| done].
    destruct (Hiff eq_refl) as (stream & mimeType & Heq). discriminate.
Defined.

(** X17.  One recording, start to finish, from a state with no recorder task
    pending: the file installed by [onstop] holds exactly the audio that the
    recorder delivered, nothing of an earlier buffer; it has the recorder's
    type; the flag is down, the queue is empty, and the stream was requested,
    recorded, stopped and released, in that order. *)
Theorem one_recording_cycle
    (P : Platform) (stream : nat) (mimeType : string) (data : Blob) (w : World) :
  tasks w = [] ->
  let mic := GetUserMediaResolves stream (Constructed mimeType false) in
  let w' := w |> handleStartRecording mic |> handleStopRecording
              |> runTask P data in
  let type := if Js.truthy mimeType then mimeType else "audio/webm" in
  (exists file, audioFile w' = Some file
                /\ file_data file = blob_data data
                /\ file_type file = type)
  /\ audioURL w' = Some (objectURL P (objectURLs w))
  /\ audioChunksRef w' = [data]
  /\ isRecording w' = false /\ recorderRecording w' = false
  /\ tasks w' = []
  /\ log w' = log w ++ [GetUserMedia; NewMediaRecorder stream;
                        RecorderStart stream; RecorderStop stream;
                        TrackStop stream].
Proof.
  intros Hempty. cbn zeta.
  unfold handleStartRecording, handleStopRecording, recorderStop, runTask,
    isRecordingState, recorderRecording. cbn. rewrite Hempty. cbn.
  unfold recorderMimeType, emit. cbn. rewrite <- !app_assoc. cbn.
  repeat split; try done.
  eexists. split; [reflexivity |]. cbn. rewrite !append_empty_r.
  by destruct (Js.truthy mimeType).
Qed.

Lemma one_recording_cycle_witness :
  let w := Demo.fresh |> handleStartRecording Demo.micGranted
             |> handleStopRecording |> runTask Demo.answering Demo.chunk in
  audioChunksRef w = [Demo.chunk] /\ isRecording w = false.
Proof.
  intros w.
  destruct (one_recording_cycle Demo.answering 1 "audio/webm" Demo.chunk
              Demo.fresh eq_refl) as (_ & _ & Hchunks & Hrec & _).
  split; [exact Hchunks | exact Hrec].
Defined.

(** X18.  Stopping is idempotent: a second [handleStopRecording] changes
    nothing, so a recorder is stopped, and its task queued, at most once. *)
Theorem handleStopRecording_idempotent (w : World) :
  handleStopRecording (handleStopRecording w) = handleStopRecording w.
Proof.
  unfold handleStopRecording at 2.
  destruct (mediaRecorderRef w) as [r |] eqn:Href.
  - destruct (isRecordingState r) eqn:Hstate.
    + unfold handleStopRecording, recorderStop. cbn. by rewrite Href, Hstate.
    + unfold handleStopRecording. by rewrite Href, Hstate.
  - unfold handleStopRecording. by rewrite Href.
Qed.

(** X19.  A file selected while the recorder runs does not stay selected:
    [handleFileSelect] installs the file and stops the recorder, and when the
    recorder's task has run, [audioFile] is the recording and [audioURL] its
    playback URL. *)
Theorem file_selected_while_recording_is_replaced
    (P : Platform) (file : option File) (data : Blob) (w : World)
    (r : MediaRecorder) :
  mediaRecorderRef w = Some r -> rec_state r = recording ->
  isRecording w = true -> tasks w = [] ->
  let w1 := handleFileSelect file w in
  let w2 := runTask P data w1 in
  audioFile w1 = file /\ audioURL w1 = None
  /\ isRecording w1 = false /\ tasks w1 = [RecorderStopped (rec_stream r)]
  /\ audioFile w2
     = Some (recordedFile (audioChunksRef w ++ [data]) (recorderMimeType w))
  /\ audioURL w2 = Some (objectURL P (objectURLs w))
  /\ tasks w2 = [].
Proof.
  intros Href Hstate Hrec Hempty. cbn zeta.
  unfold handleFileSelect. rewrite Href, Hrec.
  rewrite bool_decide_eq_true_2 by eauto. cbn.
  unfold handleStopRecording, isRecordingState. cbn. rewrite Href, Hstate.
  unfold runTask, recorderStop. cbn. rewrite Hempty. cbn.
  unfold recorderMimeType. cbn. by rewrite Href.
Qed.

Lemma file_selected_while_recording_is_replaced_witness :
  let w := handleStartRecording Demo.micGranted Demo.fresh in
  let w2 := runTask Demo.answering Demo.chunk
              (handleFileSelect (Some Demo.clip) w) in
  isRecording w = true
  /\ audioFile w2 = Some {| file_name := "recording.webm"; file_data := "GkXf";
                            file_type := "audio/webm" |}.
Proof.
  intros w w2. split; [reflexivity |].
  destruct (file_selected_while_recording_is_replaced Demo.answering
              (Some Demo.clip) Demo.chunk w
              {| rec_state := recording; rec_mimeType := "audio/webm";
                 rec_stream := 1 |} eq_refl eq_refl eq_refl eq_refl)
    as (_ & _ & _ & _ & Hfile & _).
  exact Hfile.
Defined.

(** ** The key field *)

(** X20.  [validateApiKey] accepts exactly the keys whose trimmed form
    starts with AIza (an empty or blank key is among the rejected ones), and
    it leaves the field error empty exactly when it accepts. *)
Theorem validateApiKey_accepts_iff (key : string) (w : World) :
  (validateApiKey key w).1 = Js.startsWith (Js.trim key) "AIza"
  /\ (apiKeyError (validateApiKey key w).2 = ""
      <-> Js.startsWith (Js.trim key) "AIza" = true)
  /\ (Js.trim key = "" -> (validateApiKey key w).1 = false).
Proof.
  unfold validateApiKey.
  destruct (Js.truthy (Js.trim key)) eqn:Htruthy; cbn.
  - destruct (Js.startsWith (Js.trim key) "AIza") eqn:Hprefix; cbn.
    + repeat split; try done. intros Hempty. rewrite Hempty in Htruthy.
      discriminate.
    + repeat split; try done.
  - apply truthy_false_iff in Htruthy. rewrite Htruthy. cbn.
    repeat split; try done.
Qed.

(** ** The copy button *)

Lemma display_run_invariant (events : list ResultDisplay.Event)
    (d : ResultDisplay.Display) :
  (ResultDisplay.copyStatus d = ResultDisplay.copied ->
   (0 < ResultDisplay.timers d)%nat) ->
  let d' := ResultDisplay.run events d in
  (ResultDisplay.copyStatus d' = ResultDisplay.copied ->
   (0 < ResultDisplay.timers d')%nat)
  /\ ResultDisplay.clipboard d'
     = ResultDisplay.clipboard d ++ omap ResultDisplay.copiedText events.
Proof.
  revert d. induction events as [| e events IH]; intros d Hinv; cbn zeta.
  - cbn. by rewrite app_nil_r.
  - cbn [ResultDisplay.run foldl].
    destruct (IH (ResultDisplay.step d e)) as [Hmark Hclip].
    + destruct e as [text |]; cbn; [intros _; lia |].
      unfold ResultDisplay.timeout.
      destruct (ResultDisplay.timers d) eqn:Ht; [| by cbn].
      intros Hcopied. specialize (Hinv Hcopied). lia.
    + split; [exact Hmark |]. unfold ResultDisplay.run in Hclip. rewrite Hclip.
      destruct e as [text |]; cbn.
      * by rewrite <- app_assoc.
      * unfold ResultDisplay.timeout. by destruct (ResultDisplay.timers d).
Qed.

Lemma display_timers_drain (d : ResultDisplay.Display) :
  let d' := ResultDisplay.run
              (replicate (ResultDisplay.timers d) ResultDisplay.Timeout) d in
  ResultDisplay.timers d' = 0%nat
  /\ ((0 < ResultDisplay.timers d)%nat ->
      ResultDisplay.copyStatus d' = ResultDisplay.idle)
  /\ ResultDisplay.clipboard d' = ResultDisplay.clipboard d.
Proof.
  remember (ResultDisplay.timers d) as n eqn:Hn. revert d Hn.
  induction n as [| n IH]; intros d Hn; cbn zeta.
  - cbn. split; [done |]. split; [lia | done].
  - cbn [replicate ResultDisplay.run foldl ResultDisplay.step].
    assert (Hfired : ResultDisplay.timeout d
                     = {| ResultDisplay.copyStatus := ResultDisplay.idle;
                          ResultDisplay.clipboard := ResultDisplay.clipboard d;
                          ResultDisplay.timers := n |}).
    { unfold ResultDisplay.timeout. by rewrite <- Hn. }
    rewrite Hfired.
    destruct (IH {| ResultDisplay.copyStatus := ResultDisplay.idle;
                    ResultDisplay.clipboard := ResultDisplay.clipboard d;
                    ResultDisplay.timers := n |} eq_refl) as (Hzero & Hidle & Hclip).
    split; [exact Hzero |]. split; [| exact Hclip].
    intros _. destruct n as [| n']; [done |]. apply Hidle. cbn. lia.
Qed.

(** X21.  The copy button: after any sequence of clicks and timer
    expirations, the check mark shows only while a reset timer is armed;
    every click hands its text to the clipboard, in order; and once the
    armed timers have all fired the mark is gone and the clipboard is
    untouched. *)
Theorem copied_mark_is_always_reset (events : list ResultDisplay.Event) :
  let d := ResultDisplay.run events ResultDisplay.initial in
  let drained := ResultDisplay.run
                   (replicate (ResultDisplay.timers d) ResultDisplay.Timeout) d in
  (ResultDisplay.copyStatus d = ResultDisplay.copied ->
   (0 < ResultDisplay.timers d)%nat)
  /\ ResultDisplay.clipboard d = omap ResultDisplay.copiedText events
  /\ ResultDisplay.copyStatus drained = ResultDisplay.idle
  /\ ResultDisplay.timers drained = 0%nat
  /\ ResultDisplay.clipboard drained = ResultDisplay.clipboard d.
Proof.
  cbn zeta.
  destruct (display_run_invariant events ResultDisplay.initial) as [Hmark Hclip];
    [done |].
  destruct (display_timers_drain (ResultDisplay.run events ResultDisplay.initial))
    as (Hzero & Hidle & Hsame).
  split; [exact Hmark |]. split; [exact Hclip |].
  split; [| split; [exact Hzero | exact Hsame]].
  destruct (ResultDisplay.timers (ResultDisplay.run events ResultDisplay.initial))
    as [| n] eqn:Hn.
  - cbn. destruct (ResultDisplay.copyStatus _) eqn:Hstatus; [done |].
    specialize (Hmark eq_refl). lia.
  - apply Hidle. lia.
Qed.

(** ** The cue player *)

Lemma tone_counts (type : Cue) :
  countIf AudioFeedback.isNewContext (AudioFeedback.tone type) = 0%nat
  /\ countIf AudioFeedback.isStart (AudioFeedback.tone type) = 1%nat
  /\ countIf AudioFeedback.isStop (AudioFeedback.tone type) = 1%nat
  /\ countIf AudioFeedback.isResume (AudioFeedback.tone type) = 0%nat.
Proof. by destruct type. Qed.

Lemma playAudioFeedback_calls (supported : bool)
    (state : AudioFeedback.ContextState) (type : Cue) (a : AudioFeedback.Audio) :
  let a' := AudioFeedback.playAudioFeedback supported state type a in
  exists new,
    AudioFeedback.calls a' = AudioFeedback.calls a ++ new
    /\ AudioFeedback.audioContext a' = (AudioFeedback.audioContext a || supported)
    /\ countIf AudioFeedback.isNewContext new
       = (if supported && negb (AudioFeedback.audioContext a) then 1 else 0)%nat
    /\ countIf AudioFeedback.isStart new = (if supported then 1 else 0)%nat
    /\ countIf AudioFeedback.isStop new = (if supported then 1 else 0)%nat
    /\ countIf AudioFeedback.isResume new
       = (if supported
          then match state with AudioFeedback.suspended => 1 | _ => 0 end
          else 0)%nat.
Proof.
  cbn zeta. unfold AudioFeedback.playAudioFeedback, AudioFeedback.getAudioContext.
  destruct (tone_counts type) as (Hnew & Hstart & Hstop & Hresume).
  destruct supported; cbn.
  - destruct (AudioFeedback.audioContext a) eqn:Hctx; cbn.
    + eexists. split; [reflexivity |]. rewrite Hctx.
      by destruct state, type.
    + eexists. split; [symmetry; apply app_assoc |].
      by destruct state, type.
  - exists []. rewrite app_nil_r, orb_false_r. done.
Qed.

(** X22.  Without Web Audio support [playAudioFeedback] does nothing at all.
    With it, every call starts exactly one oscillator and schedules its stop,
    later than its start and at the end of the gain ramp; it resumes the
    context exactly when the context is suspended; and it creates the
    context only if none exists yet. *)
Theorem playAudioFeedback_one_tone
    (supported : bool) (state : AudioFeedback.ContextState) (type : Cue)
    (a : AudioFeedback.Audio) :
  let a' := AudioFeedback.playAudioFeedback supported state type a in
  let new := drop (length (AudioFeedback.calls a)) (AudioFeedback.calls a') in
  (supported = false -> a' = a)
  /\ AudioFeedback.calls a' = AudioFeedback.calls a ++ new
  /\ (supported = true ->
      countIf AudioFeedback.isStart new = 1%nat
      /\ countIf AudioFeedback.isStop new = 1%nat
      /\ countIf AudioFeedback.isResume new
         = match state with AudioFeedback.suspended => 1 | _ => 0 end%nat
      /\ countIf AudioFeedback.isNewContext new
         = (if AudioFeedback.audioContext a then 0 else 1)%nat
      /\ exists stopAt,
           last new = Some (AudioFeedback.oscillatorStop stopAt)
           /\ AudioFeedback.oscillatorStart 0 ∈ new
           /\ AudioFeedback.gainExponentialRamp (1 # 10000) stopAt ∈ new
           /\ (0 < stopAt)%Q).
Proof.
  cbn zeta.
  destruct (playAudioFeedback_calls supported state type a)
    as (new & Hcalls & _ & Hnew & Hstart & Hstop & Hresume).
  rewrite Hcalls, drop_app_length.
  split; [| split; [done |]].
  - intros ->. unfold AudioFeedback.playAudioFeedback. by cbn.
  - intros ->. cbn in *. rewrite Hstart, Hstop, Hresume, Hnew.
    split; [done |]. split; [done |]. split; [done |].
    split; [by destruct (AudioFeedback.audioContext a) |].
    assert (Hshape : exists pre,
               new = pre ++ [AudioFeedback.createOscillator;
                             AudioFeedback.createGain;
                             AudioFeedback.connectOscillator;
                             AudioFeedback.connectGain;
                             AudioFeedback.gainSetValueAtTime 0 0]
                         ++ AudioFeedback.tone type).
    { unfold AudioFeedback.playAudioFeedback, AudioFeedback.getAudioContext
        in Hcalls. cbn in Hcalls.
      destruct (AudioFeedback.audioContext a); cbn in Hcalls.
      - apply app_inv_head in Hcalls. eauto.
      - rewrite <- app_assoc in Hcalls. apply app_inv_head in Hcalls.
        exists ([AudioFeedback.newAudioContext]
                ++ match state with
                   | AudioFeedback.suspended => [AudioFeedback.resume]
                   | _ => []
                   end).
        rewrite <- Hcalls. by rewrite <- !app_assoc. }
    destruct Hshape as (pre & ->).
    exists (match type with success => 1 # 5 | failure => 1 # 4 end).
    destruct type; cbn.
    all: split; [by rewrite last_app |].
    all: split; [set_solver |]. all: split; [set_solver | done].
Qed.

Lemma playAll_counts (supported : bool)
    (cues : list (AudioFeedback.ContextState * Cue)) (a : AudioFeedback.Audio) :
  countIf AudioFeedback.isNewContext (AudioFeedback.calls a)
  = (if AudioFeedback.audioContext a then 1 else 0)%nat ->
  let a' := AudioFeedback.playAll supported cues a in
  countIf AudioFeedback.isNewContext (AudioFeedback.calls a')
  = (if AudioFeedback.audioContext a' then 1 else 0)%nat
  /\ AudioFeedback.audioContext a'
     = (AudioFeedback.audioContext a
        || (supported && match cues with [] => false | _ => true end))
  /\ countIf AudioFeedback.isStart (AudioFeedback.calls a')
     = (countIf AudioFeedback.isStart (AudioFeedback.calls a)
        + if supported then length cues else 0)%nat
  /\ countIf AudioFeedback.isStop (AudioFeedback.calls a')
     = (countIf AudioFeedback.isStop (AudioFeedback.calls a)
        + if supported then length cues else 0)%nat.
Proof.
  revert a. induction cues as [| [state type] cues IH]; intros a Hinv; cbn zeta.
  - cbn. rewrite andb_false_r, orb_false_r.
    destruct supported; repeat split; (done || lia).
  - cbn [AudioFeedback.playAll foldl fst snd].
    destruct (playAudioFeedback_calls supported state type a)
      as (new & Hcalls & Hctx & Hnew & Hstart & Hstop & _).
    destruct (IH (AudioFeedback.playAudioFeedback supported state type a))
      as (Hone & Hctx' & Hstarts & Hstops).
    { rewrite Hcalls, countIf_app, Hinv, Hnew, Hctx.
      by destruct (AudioFeedback.audioContext a), supported. }
    unfold AudioFeedback.playAll in *.
    split; [exact Hone |]. split; [| split].
    + rewrite Hctx', Hctx.
      destruct (AudioFeedback.audioContext a), supported, cues; done.
    + rewrite Hstarts, Hcalls, countIf_app, Hstart.
      destruct supported; cbn; lia.
    + rewrite Hstops, Hcalls, countIf_app, Hstop.
      destruct supported; cbn; lia.
Qed.

(** X23.  One AudioContext for the whole session: over any sequence of cues
    the context is constructed at most once, namely at the first cue played
    on a platform with Web Audio support; and every oscillator started is
    also scheduled to stop. *)
Theorem audio_context_is_created_once
    (supported : bool) (cues : list (AudioFeedback.ContextState * Cue)) :
  let a := AudioFeedback.playAll supported cues AudioFeedback.initial in
  countIf AudioFeedback.isNewContext (AudioFeedback.calls a)
  = (if supported && match cues with [] => false | _ => true end
     then 1 else 0)%nat
  /\ (countIf AudioFeedback.isNewContext (AudioFeedback.calls a) <= 1)%nat
  /\ countIf AudioFeedback.isStart (AudioFeedback.calls a)
     = (if supported then length cues else 0)%nat
  /\ countIf AudioFeedback.isStop (AudioFeedback.calls a)
     = countIf AudioFeedback.isStart (AudioFeedback.calls a).
Proof.
  cbn zeta.
  destruct (playAll_counts supported cues AudioFeedback.initial eq_refl)
    as (Hone & Hctx & Hstarts & Hstops).
  cbn in Hctx, Hstarts, Hstops. rewrite Hone, Hctx, Hstarts, Hstops.
  destruct supported, cues; cbn; repeat split; lia.
Qed.

(** ** Cues of handlers that wait *)




